(** * Laptop price predictor: the request-scoped prediction pipeline

    A shallow embedding of the prediction service of the repository
    (feature schema, result cache, price normalisation, model loader,
    service pipeline and HTTP routes), followed by the properties proved
    about it.

    Conventions of the embedding:
    - a Python [float] that is computed by the program (a price) is a real
      number [R]; [np.exp] is the real exponential [exp];
    - a number read from a JSON body, and a reading of [time.time()], is a
      rational [Q], so that validation and the cache can be evaluated;
    - a Python [int] is a [Z], a [str] is a [string], a [dict] keyed by
      strings is a [gmap string _];
    - code that can raise returns a [result]; code that touches the
      process-wide singletons threads a [World]. *)

From Stdlib Require Import ZArith QArith Reals Lra Lia List String Ascii Bool.
From stdpp Require Import base option gmap strings.

Open Scope string_scope.

(* ================================================================== *)
(** * Python runtime                                                   *)
(* ================================================================== *)

(** The exceptions that the modelled code raises or catches.
    [OtherError] stands for an exception raised by an external
    collaborator (pickle, the regressor, the database driver). *)
Inductive exn : Type :=
| AttributeError (obj attr : string)
| FileNotFoundError (msg path : string)
| ValueError (msg : string)
| KeyError (key : string)
| TypeError (msg : string)
| HTTPException (status_code : Z) (detail : string)
| OtherError (msg : string).

Inductive result (A : Type) : Type :=
| Ok (a : A)
| Raise (e : exn).
Arguments Ok {A} a.
Arguments Raise {A} e.

Definition is_ok {A} (r : result A) : bool :=
  match r with Ok _ => true | Raise _ => false end.

(** Python's two-argument [min] and [max]: the first argument is returned
    unless the second is strictly smaller (resp. strictly greater). *)
Definition py_min (a b : R) : R := if Rlt_dec b a then b else a.
Definition py_max (a b : R) : R := if Rgt_dec b a then b else a.

(** The values held by the dictionaries of the program. *)
Inductive PyValue : Type :=
| PyStr (s : string)
| PyInt (z : Z)
| PyFloat (q : Q).

Definition dict : Type := gmap string PyValue.

(** Log records, by level.  The f-strings of the source are kept as
    structured messages: the floats they interpolate are arguments. *)
Inductive LogMsg : Type :=
| AppliedExp (original price : R)
| AppliedScaling (original price : R)
| PriceCorrected (original price : R)
| Msg (text : string)
| MsgDict (text : string) (d : dict)
| MsgExn (text : string) (e : exn).

Inductive LogRecord : Type :=
| INFO (m : LogMsg)
| ERROR (m : LogMsg).

(* ================================================================== *)
(** * Price normaliser                                                 *)
(* ================================================================== *)

(** models/prediction_model.py, [LaptopPriceModel._process_prediction],
    applied to [float(raw_prediction[0])]. *)
Definition _process_prediction (raw_prediction : R) : R :=
  let prediction_value := raw_prediction in
  let prediction_value :=
    if Rlt_dec prediction_value 100 then exp prediction_value
    else prediction_value in
  let prediction_value :=
    if Rlt_dec prediction_value 1000 then (prediction_value * 1000)%R
    else prediction_value in
  py_max 1000 (py_min prediction_value 500000).

(** services/v1/prediction_service.py,
    [PredictionService._apply_price_correction]: the corrected price and
    the records it logs, oldest first. *)
Definition _apply_price_correction (price : R) : R * list LogRecord :=
  let original_price := price in
  let '(price, log1) :=
    if Rlt_dec price 100
    then (exp price, [INFO (AppliedExp original_price (exp price))])
    else (price, []) in
  let '(price, log2) :=
    if Rlt_dec price 10000
    then ((price * 100)%R,
          [INFO (AppliedScaling original_price (price * 100)%R)])
    else (price, []) in
  let price := py_max 10000 (py_min price 500000) in
  let log3 :=
    if Req_dec_T original_price price then []
    else [INFO (PriceCorrected original_price price)] in
  (price, (log1 ++ log2 ++ log3)%list).

(** The service-layer rule as the specification words it: exponentiate
    below 100, then scale by 100 below 10000, then clamp. *)
Definition clamp (lo hi x : R) : R :=
  if Rlt_dec x lo then lo else if Rlt_dec hi x then hi else x.

Definition spec_exponentiate (raw : R) : R :=
  if Rlt_dec raw 100 then exp raw else raw.

Definition spec_scale (threshold factor v : R) : R :=
  if Rlt_dec v threshold then (v * factor)%R else v.

Definition spec_service_correction (raw : R) : R :=
  clamp 10000 500000 (spec_scale 10000 100 (spec_exponentiate raw)).

(* ================================================================== *)
(** * Feature schema                                                   *)
(* ================================================================== *)

(** models/user_input_schema_model.py.  Each [str] enumeration is an
    inductive type with its table of values; pydantic accepts a string
    for such a field exactly when it is the value of a member. *)
Module Company.
Inductive t := APPLE | HP | ACER | ASUS | DELL | LENOVO | MSI | TOSHIBA
             | SAMSUNG | OTHER.
Definition value (c : t) : string :=
  match c with
  | APPLE => "Apple" | HP => "HP" | ACER => "Acer" | ASUS => "Asus"
  | DELL => "Dell" | LENOVO => "Lenovo" | MSI => "MSI"
  | TOSHIBA => "Toshiba" | SAMSUNG => "Samsung" | OTHER => "Other"
  end.
Definition members : list t :=
  [APPLE; HP; ACER; ASUS; DELL; LENOVO; MSI; TOSHIBA; SAMSUNG; OTHER].
End Company.

Module TypeName.
Inductive t := ULTRABOOK | NOTEBOOK | NETBOOK | GAMING | TWO_IN_ONE
             | WORKSTATION.
Definition value (c : t) : string :=
  match c with
  | ULTRABOOK => "Ultrabook" | NOTEBOOK => "Notebook"
  | NETBOOK => "Netbook" | GAMING => "Gaming"
  | TWO_IN_ONE => "2 in 1 Convertible" | WORKSTATION => "Workstation"
  end.
Definition members : list t :=
  [ULTRABOOK; NOTEBOOK; NETBOOK; GAMING; TWO_IN_ONE; WORKSTATION].
End TypeName.

Module CpuBrand.
Inductive t := INTEL_CORE_I3 | INTEL_CORE_I5 | INTEL_CORE_I7
             | AMD_PROCESSOR | OTHER_INTEL.
Definition value (c : t) : string :=
  match c with
  | INTEL_CORE_I3 => "Intel Core i3" | INTEL_CORE_I5 => "Intel Core i5"
  | INTEL_CORE_I7 => "Intel Core i7" | AMD_PROCESSOR => "AMD Processor"
  | OTHER_INTEL => "Other Intel Processor"
  end.
Definition members : list t :=
  [INTEL_CORE_I3; INTEL_CORE_I5; INTEL_CORE_I7; AMD_PROCESSOR; OTHER_INTEL].
End CpuBrand.

Module GpuBrand.
Inductive t := INTEL | AMD | NVIDIA.
Definition value (c : t) : string :=
  match c with INTEL => "Intel" | AMD => "AMD" | NVIDIA => "Nvidia" end.
Definition members : list t := [INTEL; AMD; NVIDIA].
End GpuBrand.

Module OS.
Inductive t := MAC | WINDOWS | LINUX.
Definition value (c : t) : string :=
  match c with
  | MAC => "Mac" | WINDOWS => "Windows" | LINUX => "Others/No OS/Linux"
  end.
Definition members : list t := [MAC; WINDOWS; LINUX].
End OS.

(** class LaptopFeatures(BaseModel): the validated record. *)
Record LaptopFeatures : Type := {
  company : Company.t;
  type_name : TypeName.t;
  ram : Z;
  weight : Q;
  touchscreen : Z;
  ips : Z;
  ppi : Q;
  cpu_brand : CpuBrand.t;
  hdd : Z;
  ssd : Z;
  gpu_brand : GpuBrand.t;
  os : OS.t
}.

(** The decoded request body: a field is absent ([None]) or carries a
    value of the JSON type of its annotation; keys that are not fields
    are ignored by pydantic and are not represented. *)
Record RawBody : Type := {
  raw_company : option string;
  raw_type_name : option string;
  raw_ram : option Z;
  raw_weight : option Q;
  raw_touchscreen : option Z;
  raw_ips : option Z;
  raw_ppi : option Q;
  raw_cpu_brand : option string;
  raw_hdd : option Z;
  raw_ssd : option Z;
  raw_gpu_brand : option string;
  raw_os : option string
}.

(** One line of a pydantic [ValidationError]: the field and the kind of
    the violation. *)
Inductive ErrorType : Type :=
| missing
| enum
| greater_than_equal
| less_than_equal
| value_error (msg : string).

Definition ErrorDetails : Type := string * ErrorType.

(** [Field(...)]: the field is required. *)
Definition Field_required {A B} (validate : A -> ErrorType + B)
    (raw : option A) : ErrorType + B :=
  match raw with
  | None => inl missing
  | Some v => validate v
  end.

(** [Field(default)]: an omitted field takes the default, which is not
    validated. *)
Definition Field_default {A B} (default : B) (validate : A -> ErrorType + B)
    (raw : option A) : ErrorType + B :=
  match raw with
  | None => inr default
  | Some v => validate v
  end.

Definition enum_validator {E} (value : E -> string) (members : list E)
    (s : string) : ErrorType + E :=
  match List.find (fun e => String.eqb (value e) s) members with
  | Some e => inr e
  | None => inl enum
  end.

(** [ge=lo, le=hi] on an [int] and on a [float]. *)
Definition int_validator (lo hi : Z) (v : Z) : ErrorType + Z :=
  if (v <? lo)%Z then inl greater_than_equal
  else if (hi <? v)%Z then inl less_than_equal
  else inr v.

Definition float_validator (lo hi : Q) (v : Q) : ErrorType + Q :=
  if Qlt_le_dec v lo then inl greater_than_equal
  else if Qlt_le_dec hi v then inl less_than_equal
  else inr v.

(** [LaptopFeatures.validate_ram]. *)
Definition valid_ram : list Z := [2; 4; 6; 8; 12; 16; 24; 32; 64]%Z.

Definition validate_ram (v : Z) : result Z :=
  if negb (existsb (Z.eqb v) valid_ram)
  then Raise (ValueError "RAM must be one of [2, 4, 6, 8, 12, 16, 24, 32, 64]")
  else Ok v.

(** A field validator followed by a [@validator] method: the method runs
    on the value the field validator accepted, and its [ValueError]
    becomes a [value_error] line. *)
Definition after_validator {A B} (inner : A -> ErrorType + B)
    (method : B -> result B) (v : A) : ErrorType + B :=
  match inner v with
  | inl e => inl e
  | inr x =>
      match method x with
      | Ok y => inr y
      | Raise (ValueError msg) => inl (value_error msg)
      | Raise _ => inl (value_error "")
      end
  end.

(** The twelve field declarations of [LaptopFeatures], in order. *)
Definition company_field :=
  Field_required (enum_validator Company.value Company.members).
Definition type_name_field :=
  Field_required (enum_validator TypeName.value TypeName.members).
Definition ram_field :=
  Field_required (after_validator (int_validator 2 64) validate_ram).
Definition weight_field := Field_required (float_validator (1#2) 5).
Definition touchscreen_field := Field_default 0%Z (int_validator 0 1).
Definition ips_field := Field_default 0%Z (int_validator 0 1).
Definition ppi_field := Field_required (float_validator 90 400).
Definition cpu_brand_field :=
  Field_required (enum_validator CpuBrand.value CpuBrand.members).
Definition hdd_field := Field_default 0%Z (int_validator 0 2000).
Definition ssd_field := Field_default 0%Z (int_validator 0 2048).
Definition gpu_brand_field :=
  Field_required (enum_validator GpuBrand.value GpuBrand.members).
Definition os_field := Field_required (enum_validator OS.value OS.members).

Definition error_at {B} (loc : string) (r : ErrorType + B)
    : list ErrorDetails :=
  match r with
  | inl e => [(loc, e)]
  | inr _ => []
  end.

(** Validation of a body: the record when every field is accepted, and
    otherwise one line for every field that is not, in field order. *)
Definition model_validate (b : RawBody)
    : list ErrorDetails + LaptopFeatures :=
  let r_company := company_field (raw_company b) in
  let r_type_name := type_name_field (raw_type_name b) in
  let r_ram := ram_field (raw_ram b) in
  let r_weight := weight_field (raw_weight b) in
  let r_touchscreen := touchscreen_field (raw_touchscreen b) in
  let r_ips := ips_field (raw_ips b) in
  let r_ppi := ppi_field (raw_ppi b) in
  let r_cpu_brand := cpu_brand_field (raw_cpu_brand b) in
  let r_hdd := hdd_field (raw_hdd b) in
  let r_ssd := ssd_field (raw_ssd b) in
  let r_gpu_brand := gpu_brand_field (raw_gpu_brand b) in
  let r_os := os_field (raw_os b) in
  match r_company, r_type_name, r_ram, r_weight, r_touchscreen, r_ips,
        r_ppi, r_cpu_brand, r_hdd, r_ssd, r_gpu_brand, r_os with
  | inr c, inr t, inr r, inr w, inr ts, inr i,
    inr p, inr cpu, inr h, inr s, inr g, inr o =>
      inr {| company := c; type_name := t; ram := r; weight := w;
             touchscreen := ts; ips := i; ppi := p; cpu_brand := cpu;
             hdd := h; ssd := s; gpu_brand := g; os := o |}
  | _, _, _, _, _, _, _, _, _, _, _, _ =>
      inl (error_at "company" r_company ++ error_at "type_name" r_type_name
           ++ error_at "ram" r_ram ++ error_at "weight" r_weight
           ++ error_at "touchscreen" r_touchscreen ++ error_at "ips" r_ips
           ++ error_at "ppi" r_ppi ++ error_at "cpu_brand" r_cpu_brand
           ++ error_at "hdd" r_hdd ++ error_at "ssd" r_ssd
           ++ error_at "gpu_brand" r_gpu_brand ++ error_at "os" r_os)%list
  end.

(** The error lines of all the fields, in field order. *)
Definition all_field_errors (b : RawBody) : list ErrorDetails :=
  (error_at "company" (company_field (raw_company b))
   ++ error_at "type_name" (type_name_field (raw_type_name b))
   ++ error_at "ram" (ram_field (raw_ram b))
   ++ error_at "weight" (weight_field (raw_weight b))
   ++ error_at "touchscreen" (touchscreen_field (raw_touchscreen b))
   ++ error_at "ips" (ips_field (raw_ips b))
   ++ error_at "ppi" (ppi_field (raw_ppi b))
   ++ error_at "cpu_brand" (cpu_brand_field (raw_cpu_brand b))
   ++ error_at "hdd" (hdd_field (raw_hdd b))
   ++ error_at "ssd" (ssd_field (raw_ssd b))
   ++ error_at "gpu_brand" (gpu_brand_field (raw_gpu_brand b))
   ++ error_at "os" (os_field (raw_os b)))%list.

(** The example body of the schema ([Config.json_schema_extra]). *)
Definition example_body : RawBody := {|
  raw_company := Some "Dell";
  raw_type_name := Some "Notebook";
  raw_ram := Some 8%Z;
  raw_weight := Some 2%Q;
  raw_touchscreen := Some 0%Z;
  raw_ips := Some 1%Z;
  raw_ppi := Some (14121 # 100)%Q;
  raw_cpu_brand := Some "Intel Core i5";
  raw_hdd := Some 0%Z;
  raw_ssd := Some 256%Z;
  raw_gpu_brand := Some "Intel";
  raw_os := Some "Windows"
|}.

Definition example_features : LaptopFeatures := {|
  company := Company.DELL;
  type_name := TypeName.NOTEBOOK;
  ram := 8;
  weight := 2;
  touchscreen := 0;
  ips := 1;
  ppi := 14121 # 100;
  cpu_brand := CpuBrand.INTEL_CORE_I5;
  hdd := 0;
  ssd := 256;
  gpu_brand := GpuBrand.INTEL;
  os := OS.WINDOWS
|}.

(** The example body with the four optional keys left out. *)
Definition example_body_minimal : RawBody := {|
  raw_company := Some "Dell";
  raw_type_name := Some "Notebook";
  raw_ram := Some 8%Z;
  raw_weight := Some 2%Q;
  raw_touchscreen := None;
  raw_ips := None;
  raw_ppi := Some (14121 # 100)%Q;
  raw_cpu_brand := Some "Intel Core i5";
  raw_hdd := None;
  raw_ssd := None;
  raw_gpu_brand := Some "Intel";
  raw_os := Some "Windows"
|}.

(** A body in which each of the four fields declared with [Field(0, ...)]
    that is absent is given as 0. *)
Definition with_zero_defaults (b : RawBody) : RawBody := {|
  raw_company := raw_company b;
  raw_type_name := raw_type_name b;
  raw_ram := raw_ram b;
  raw_weight := raw_weight b;
  raw_touchscreen := Some (default 0%Z (raw_touchscreen b));
  raw_ips := Some (default 0%Z (raw_ips b));
  raw_ppi := raw_ppi b;
  raw_cpu_brand := raw_cpu_brand b;
  raw_hdd := Some (default 0%Z (raw_hdd b));
  raw_ssd := Some (default 0%Z (raw_ssd b));
  raw_gpu_brand := raw_gpu_brand b;
  raw_os := raw_os b
|}.

(* ================================================================== *)
(** * Result cache                                                     *)
(* ================================================================== *)

(** utils/cache.py, [class SimpleCache].  A method that reads the clock
    takes the reading [now] of [time.time()] as an argument; a method
    that mutates [self._cache] returns the updated object. *)
Module SimpleCache.
Section WithValue.
Context {V : Type}.

Record t : Type := {
  _cache : gmap string (V * Q);
  _ttl : Q
}.

(** [__init__(self, ttl=300)] *)
Definition init (ttl : Q) : t := {| _cache := ∅; _ttl := ttl |}.
Definition default_ttl : Q := 300.

Definition get (now : Q) (key : string) (self : t) : option V * t :=
  match _cache self !! key with
  | Some (value, timestamp) =>
      if Qlt_le_dec (now - timestamp) (_ttl self)
      then (Some value, self)
      else (None, {| _cache := delete key (_cache self);
                     _ttl := _ttl self |})
  | None => (None, self)
  end.

Definition set (now : Q) (key : string) (value : V) (self : t) : t :=
  {| _cache := <[key := (value, now)]> (_cache self); _ttl := _ttl self |}.

Definition clear (self : t) : t :=
  {| _cache := ∅; _ttl := _ttl self |}.

End WithValue.
Arguments t V : clear implicits.
End SimpleCache.

(* ================================================================== *)
(** * Price formatting                                                 *)
(* ================================================================== *)

(** Decimal rendering of non-negative integers, as [float.__format__]
    produces it for the presentation type [f]. *)
Definition digit (d : Z) : ascii := ascii_of_nat (48 + Z.to_nat d).

Definition is_digit (c : ascii) : bool :=
  (48 <=? nat_of_ascii c)%nat && (nat_of_ascii c <=? 57)%nat.

(** The digits of [n], most significant first; [fuel] bounds the number
    of digits. *)
Fixpoint decimal_fuel (fuel : nat) (n : Z) : string :=
  match fuel with
  | O => ""
  | S fuel' =>
      if (n <? 10)%Z then String (digit n) ""
      else decimal_fuel fuel' (n / 10) +:+ String (digit (n mod 10)) ""
  end.

Definition decimal (n : Z) : string :=
  decimal_fuel (S (Z.to_nat (Z.log2 n))) n.

Definition pad2 (n : Z) : string :=
  String (digit (n / 10)) (String (digit (n mod 10)) "").

Definition pad3 (n : Z) : string :=
  String (digit (n / 100)) (pad2 (n mod 100)).

(** The [,] option: the integer digits in groups of three from the
    right, separated by commas. *)
Fixpoint group_thousands_fuel (fuel : nat) (n : Z) : string :=
  match fuel with
  | O => ""
  | S fuel' =>
      if (n <? 1000)%Z then decimal n
      else group_thousands_fuel fuel' (n / 1000) +:+ ","
           +:+ pad3 (n mod 1000)
  end.

Definition group_thousands (n : Z) : string :=
  group_thousands_fuel (S (Z.to_nat (Z.log2 n))) n.

(** Rounding of a non-negative real to the nearest integer, ties to
    even: the rounding of the exact value that the [f] presentation type
    applies. *)
Definition round_half_even (y : R) : Z :=
  let n := Int_part y in
  let f := (y - IZR n)%R in
  if Rlt_dec f (1 / 2) then n
  else if Rlt_dec (1 / 2) f then (n + 1)%Z
  else if Z.even n then n else (n + 1)%Z.

(** [format(x, ".2f")] and [format(x, ",.2f")] for a finite float. *)
Definition fixed_2f (grouping : bool) (x : R) : string :=
  let cents := round_half_even (Rabs x * 100) in
  (if Rlt_dec x 0 then "-" else "")
  +:+ (if grouping then group_thousands (cents / 100)
       else decimal (cents / 100))
  +:+ "." +:+ pad2 (cents mod 100).

Definition float_format (x : R) (format_spec : string) : result string :=
  if String.eqb format_spec ",.2f" then Ok (fixed_2f true x)
  else if String.eqb format_spec ".2f" then Ok (fixed_2f false x)
  else Raise (ValueError "Invalid format specifier").

Definition rupee : string := "₹".

(** models/prediction_model.py, [LaptopPriceModel.format_price], over the
    formatting primitive [format] that the two f-strings call: the
    string returned (or the exception of the handler's own f-string) and
    the records logged.  In the handler [price] is the value rebound in
    the [try] block. *)
Definition format_price_with (format : R -> string -> result string)
    (price : R) : result string * list LogRecord :=
  let price := if Rlt_dec price 100 then (price * 1000)%R else price in
  match format price ",.2f" with
  | Ok s => (Ok (rupee +:+ s), [])
  | Raise e =>
      (match format price ".2f" with
       | Ok s => Ok (rupee +:+ s)
       | Raise e' => Raise e'
       end,
       [ERROR (MsgExn "Price formatting error: " e)])
  end.

Definition format_price : R -> result string * list LogRecord :=
  format_price_with float_format.

(** Predicates on display strings. *)
Fixpoint string_forall (p : ascii -> bool) (s : string) : bool :=
  match s with
  | EmptyString => true
  | String c s' => p c && string_forall p s'
  end.

Fixpoint contains_char (c : ascii) (s : string) : bool :=
  match s with
  | EmptyString => false
  | String c' s' => Ascii.eqb c c' || contains_char c s'
  end.

Definition comma : ascii := ","%char.

Definition is_digit_or_comma (c : ascii) : bool :=
  is_digit c || Ascii.eqb c comma.

(** The number that a string of decimal digits denotes. *)
Fixpoint digits_value_from (acc : Z) (s : string) : Z :=
  match s with
  | EmptyString => acc
  | String c s' =>
      digits_value_from (10 * acc + (Z.of_nat (nat_of_ascii c) - 48))%Z s'
  end.

Definition digits_value (s : string) : Z := digits_value_from 0 s.

(* ================================================================== *)
(** * The process: collaborators, state, effects                       *)
(* ================================================================== *)

(** An object read from a pickle file; the program never looks inside. *)
Inductive PyObject : Type := Unpickled (id : nat).

(** [PredictionResponse] and [PredictionRecord] of
    models/user_input_schema_model.py. *)
Module PredictionResponse.
Record t : Type := {
  prediction_id : string;
  predicted_price : R;
  price_formatted : string;
  confidence : option R;
  features : LaptopFeatures
}.
End PredictionResponse.

Module PredictionRecord.
Record t : Type := {
  input_features : dict;
  output_prediction : R;
  price_formatted : string;
  timestamp : string;
  prediction_id : string
}.
End PredictionRecord.

(** What the pipeline does not compute itself: the settings, the file
    system, pickle, the regressor, Python's [hash], [uuid4], the rendering
    of a date and the prediction repository.  A collaborator that can
    raise returns a [result]. *)
Record Env : Type := {
  settings_model_path : string;
  settings_data_path : string;
  path_exists : string -> bool;
  pickle_load : string -> result PyObject;
  (** [float(self.model.predict(input_df)[0])] *)
  model_predict : PyObject -> list (string * PyValue) -> result R;
  (** [hash(frozenset(d.items()))] *)
  hash_items : dict -> Z;
  (** the n-th value of [str(uuid.uuid4())] *)
  uuid4 : nat -> string;
  (** [datetime.fromtimestamp(t, timezone.utc).isoformat()] *)
  isoformat : Q -> string;
  (** [prediction_repository.save_prediction(record)] *)
  save_prediction : PredictionRecord.t -> result string;
  (** [prediction_repository.get_all_predictions(limit, skip)] *)
  get_all_predictions : Z -> Z -> result (list PredictionRecord.t)
}.

Definition with_save_prediction
    (save : PredictionRecord.t -> result string) (env : Env) : Env :=
  {| settings_model_path := settings_model_path env;
     settings_data_path := settings_data_path env;
     path_exists := path_exists env;
     pickle_load := pickle_load env;
     model_predict := model_predict env;
     hash_items := hash_items env;
     uuid4 := uuid4 env;
     isoformat := isoformat env;
     save_prediction := save;
     get_all_predictions := get_all_predictions env |}.

(** A coroutine handed to [asyncio.create_task]. *)
Inductive Task : Type :=
| SavePredictionRecord (features : dict) (response : PredictionResponse.t).

(** A call received by the prediction repository. *)
Inductive DbCall : Type :=
| SavePrediction (record : PredictionRecord.t)
| GetAllPredictions (limit skip : Z).

(** The process-wide singletons ([prediction_model], [prediction_cache]),
    the clock, the identifiers drawn so far, the log, the tasks created
    and not yet run, and the calls the repository has received. *)
Record World : Type := {
  model : option PyObject;
  df : option PyObject;
  is_loaded : bool;
  cache : SimpleCache.t PredictionResponse.t;
  clock : Q;
  uuid_count : nat;
  log : list LogRecord;
  tasks : list Task;
  db_calls : list DbCall
}.

Definition initial_world (now : Q) : World :=
  {| model := None; df := None; is_loaded := false;
     cache := SimpleCache.init SimpleCache.default_ttl;
     clock := now; uuid_count := 0; log := []; tasks := []; db_calls := [] |}.

Definition with_loaded (m d : PyObject) (w : World) : World :=
  {| model := Some m; df := Some d; is_loaded := true;
     cache := cache w; clock := clock w; uuid_count := uuid_count w;
     log := log w; tasks := tasks w; db_calls := db_calls w |}.

Definition with_cache (c : SimpleCache.t PredictionResponse.t) (w : World)
    : World :=
  {| model := model w; df := df w; is_loaded := is_loaded w;
     cache := c; clock := clock w; uuid_count := uuid_count w;
     log := log w; tasks := tasks w; db_calls := db_calls w |}.

Definition with_uuid_count (n : nat) (w : World) : World :=
  {| model := model w; df := df w; is_loaded := is_loaded w;
     cache := cache w; clock := clock w; uuid_count := n;
     log := log w; tasks := tasks w; db_calls := db_calls w |}.

Definition with_log (l : list LogRecord) (w : World) : World :=
  {| model := model w; df := df w; is_loaded := is_loaded w;
     cache := cache w; clock := clock w; uuid_count := uuid_count w;
     log := l; tasks := tasks w; db_calls := db_calls w |}.

Definition with_tasks (ts : list Task) (w : World) : World :=
  {| model := model w; df := df w; is_loaded := is_loaded w;
     cache := cache w; clock := clock w; uuid_count := uuid_count w;
     log := log w; tasks := ts; db_calls := db_calls w |}.

Definition with_db_calls (cs : list DbCall) (w : World) : World :=
  {| model := model w; df := df w; is_loaded := is_loaded w;
     cache := cache w; clock := clock w; uuid_count := uuid_count w;
     log := log w; tasks := tasks w; db_calls := cs |}.

(** Computations that read and write the [World] and may raise; what was
    written before an exception stays written. *)
Definition M (A : Type) : Type := World -> result A * World.

Definition ret {A} (a : A) : M A := fun w => (Ok a, w).

Definition bind {A B} (m : M A) (k : A -> M B) : M B :=
  fun w =>
    match m w with
    | (Ok a, w') => k a w'
    | (Raise e, w') => (Raise e, w')
    end.

Definition raise {A} (e : exn) : M A := fun w => (Raise e, w).

Definition lift {A} (r : result A) : M A := fun w => (r, w).

Definition gets {A} (f : World -> A) : M A := fun w => (Ok (f w), w).

Definition modify (f : World -> World) : M unit := fun w => (Ok tt, f w).

(** [try: body except Exception as e: handler e] *)
Definition try_except {A} (body : M A) (handler : exn -> M A) : M A :=
  fun w =>
    match body w with
    | (Ok a, w') => (Ok a, w')
    | (Raise e, w') => handler e w'
    end.

Notation "'let*' x ':=' c1 'in' c2" := (bind c1 (fun x => c2))
  (at level 10, x name, c1 at level 200, c2 at level 200).

Definition logger (r : LogRecord) : M unit :=
  modify (fun w => with_log (log w ++ [r]) w).

Definition logger_all (rs : list LogRecord) : M unit :=
  modify (fun w => with_log (log w ++ rs) w).

Definition cache_get (key : string) : M (option PredictionResponse.t) :=
  fun w =>
    let '(value, c) := SimpleCache.get (clock w) key (cache w) in
    (Ok value, with_cache c w).

Definition cache_set (key : string) (value : PredictionResponse.t) : M unit :=
  modify (fun w => with_cache (SimpleCache.set (clock w) key value (cache w)) w).

Definition new_uuid (env : Env) : M string :=
  fun w => (Ok (uuid4 env (uuid_count w)), with_uuid_count (S (uuid_count w)) w).

Definition create_task (t : Task) : M unit :=
  modify (fun w => with_tasks (tasks w ++ [t]) w).

Definition repository_save_prediction (env : Env)
    (record : PredictionRecord.t) : M string :=
  fun w => (save_prediction env record,
            with_db_calls (db_calls w ++ [SavePrediction record]) w).

Definition repository_get_all_predictions (env : Env) (limit skip : Z)
    : M (list PredictionRecord.t) :=
  fun w => (get_all_predictions env limit skip,
            with_db_calls (db_calls w ++ [GetAllPredictions limit skip]) w).

(** [str(n)] for an [int] and [str(e)] for an exception. *)
Definition str_int (n : Z) : string :=
  if (n <? 0)%Z then "-" +:+ decimal (- n) else decimal n.

Definition str_exn (e : exn) : string :=
  match e with
  | AttributeError obj attr =>
      "'" +:+ obj +:+ "' object has no attribute '" +:+ attr +:+ "'"
  | FileNotFoundError msg path => msg +:+ path
  | ValueError msg => msg
  | KeyError key => "'" +:+ key +:+ "'"
  | TypeError msg => msg
  | HTTPException status_code detail =>
      str_int status_code +:+ ": " +:+ detail
  | OtherError msg => msg
  end.

(* ================================================================== *)
(** * Model loader and inference                                       *)
(* ================================================================== *)

(** [features.model_dump()]: the twelve fields by name. *)
Definition model_dump (f : LaptopFeatures) : dict :=
  list_to_map
    [("company", PyStr (Company.value (company f)));
     ("type_name", PyStr (TypeName.value (type_name f)));
     ("ram", PyInt (ram f));
     ("weight", PyFloat (weight f));
     ("touchscreen", PyInt (touchscreen f));
     ("ips", PyInt (ips f));
     ("ppi", PyFloat (ppi f));
     ("cpu_brand", PyStr (CpuBrand.value (cpu_brand f)));
     ("hdd", PyInt (hdd f));
     ("ssd", PyInt (ssd f));
     ("gpu_brand", PyStr (GpuBrand.value (gpu_brand f)));
     ("os", PyStr (OS.value (os f)))].

(** [d[key]] *)
Definition getitem (d : dict) (key : string) : result PyValue :=
  match d !! key with
  | Some v => Ok v
  | None => Raise (KeyError key)
  end.

Module LaptopPriceModel.

(** [load_model].  The two files are unpickled by [asyncio.gather]; the
    model file is taken first. *)
Definition load_model (env : Env) : M unit :=
  let* loaded := gets is_loaded in
  if negb loaded then
    try_except
      (let model_path := settings_model_path env in
       let data_path := settings_data_path env in
       let* _ := logger (INFO (Msg ("Loading model from: " +:+ model_path))) in
       let* _ := logger (INFO (Msg ("Loading data from: " +:+ data_path))) in
       let* _ :=
         if negb (path_exists env model_path)
         then raise (FileNotFoundError "Model file not found: " model_path)
         else ret tt in
       let* _ :=
         if negb (path_exists env data_path)
         then raise (FileNotFoundError "Data file not found: " data_path)
         else ret tt in
       let* m := lift (pickle_load env model_path) in
       let* d := lift (pickle_load env data_path) in
       let* _ := modify (with_loaded m d) in
       logger (INFO (Msg "Model and data loaded successfully")))
      (fun e =>
         let* _ := logger (ERROR (MsgExn "Error loading model: " e)) in
         raise e)
  else ret tt.

(** [preprocess_features]: the one-row frame, column by column. *)
Definition preprocess_features (features : dict)
    : result (list (string * PyValue)) :=
  let column (name key : string) (rest : list (string * PyValue)
                                  -> result (list (string * PyValue)))
      (acc : list (string * PyValue)) :=
    match getitem features key with
    | Ok v => rest (acc ++ [(name, v)])%list
    | Raise e => Raise e
    end in
  column "Company" "company"
    (column "TypeName" "type_name"
    (column "Ram" "ram"
    (column "Weight" "weight"
    (column "Touchscreen" "touchscreen"
    (column "Ips" "ips"
    (column "ppi" "ppi"
    (column "Cpu brand" "cpu_brand"
    (column "HDD" "hdd"
    (column "SSD" "ssd"
    (column "Gpu brand" "gpu_brand"
    (column "os" "os" Ok))))))))))) [].

(** [predict] *)
Definition predict (env : Env) (features : dict) : M R :=
  let* loaded := gets is_loaded in
  let* _ := if negb loaded then load_model env else ret tt in
  try_except
    (let* input_df := lift (preprocess_features features) in
     let* m := gets model in
     let* raw_prediction :=
       match m with
       | Some regressor => lift (model_predict env regressor input_df)
       | None => raise (AttributeError "NoneType" "predict")
       end in
     ret (_process_prediction raw_prediction))
    (fun e =>
       let* _ := logger (ERROR (MsgExn "Prediction error: " e)) in
       raise e).

End LaptopPriceModel.

(* ================================================================== *)
(** * Prediction service                                               *)
(* ================================================================== *)

(** What [getattr(features, name)] finds on a [LaptopFeatures] object:
    the value of a field, a method that returns a dictionary when called
    with no argument, or another attribute of the class. *)
Inductive PyAttr : Type :=
| AttrValue (v : PyValue)
| AttrDictMethod (returns : dict)
| AttrOther.

(** The names the class defines itself and the public names it inherits
    from pydantic's [BaseModel], other than the fields and the two
    dictionary methods. *)
Definition other_attributes : list string :=
  ["validate_ram"; "Config"; "model_config"; "model_fields";
   "model_computed_fields"; "model_extra"; "model_fields_set";
   "model_construct"; "model_copy"; "model_dump_json";
   "model_json_schema"; "model_parametrized_name"; "model_post_init";
   "model_rebuild"; "model_validate"; "model_validate_json";
   "model_validate_strings"; "copy"; "json"; "parse_obj"; "parse_raw";
   "parse_file"; "from_orm"; "construct"; "schema"; "schema_json";
   "validate"; "update_forward_refs"].

Definition getattr (self : LaptopFeatures) (name : string) : result PyAttr :=
  match model_dump self !! name with
  | Some v => Ok (AttrValue v)
  | None =>
      if String.eqb name "model_dump" || String.eqb name "dict"
      then Ok (AttrDictMethod (model_dump self))
      else if existsb (String.eqb name) other_attributes then Ok AttrOther
      else Raise (AttributeError "LaptopFeatures" name)
  end.

(** [attr()] *)
Definition call_no_args (attr : PyAttr) : result dict :=
  match attr with
  | AttrDictMethod d => Ok d
  | AttrValue _ => Raise (TypeError "object is not callable")
  | AttrOther => Raise (TypeError "unexpected call")
  end.

Module PredictionService.

(** [_create_cache_key]: [features.model()], then the hash of the items
    of the dictionary it returns. *)
Definition _create_cache_key (env : Env) (features : LaptopFeatures)
    : result string :=
  match getattr features "model" with
  | Raise e => Raise e
  | Ok method =>
      match call_no_args method with
      | Raise e => Raise e
      | Ok feature_dict =>
          Ok ("prediction:" +:+ str_int (hash_items env feature_dict))
      end
  end.

(** [_save_prediction_record] *)
Definition _save_prediction_record (env : Env) (features : dict)
    (response : PredictionResponse.t) : M unit :=
  try_except
    (let* now := gets clock in
     let record :=
       {| PredictionRecord.input_features := features;
          PredictionRecord.output_prediction :=
            PredictionResponse.predicted_price response;
          PredictionRecord.price_formatted :=
            PredictionResponse.price_formatted response;
          PredictionRecord.timestamp := isoformat env now;
          PredictionRecord.prediction_id :=
            PredictionResponse.prediction_id response |} in
     let* _ := repository_save_prediction env record in
     logger (INFO (Msg ("Prediction saved with ID: "
                        +:+ PredictionResponse.prediction_id response))))
    (fun e => logger (ERROR (MsgExn "Error saving prediction: " e))).

(** [predict_price], over the method that derives the cache key. *)
Definition predict_price_with
    (create_cache_key : LaptopFeatures -> result string)
    (env : Env) (features : LaptopFeatures) : M PredictionResponse.t :=
  let* cache_key := lift (create_cache_key features) in
  let* cached_result := cache_get cache_key in
  match cached_result with
  | Some response =>
      let* _ := logger (INFO (Msg "Returning cached prediction")) in
      ret response
  | None =>
      let feature_dict := model_dump features in
      let* _ :=
        logger (INFO (MsgDict "Making prediction for features: "
                              feature_dict)) in
      let* predicted_price := LaptopPriceModel.predict env feature_dict in
      let '(predicted_price, corrections) :=
        _apply_price_correction predicted_price in
      let* _ := logger_all corrections in
      let* prediction_id := new_uuid env in
      let '(formatted, format_log) := format_price predicted_price in
      let* _ := logger_all format_log in
      let* price_formatted := lift formatted in
      let response :=
        {| PredictionResponse.prediction_id := prediction_id;
           PredictionResponse.predicted_price := predicted_price;
           PredictionResponse.price_formatted := price_formatted;
           PredictionResponse.confidence := None;
           PredictionResponse.features := features |} in
      let* _ := cache_set cache_key response in
      let* _ := create_task (SavePredictionRecord feature_dict response) in
      ret response
  end.

(** [predict_price] as the class has it: the key is derived by
    [self._create_cache_key]. *)
Definition predict_price (env : Env) : LaptopFeatures -> M PredictionResponse.t :=
  predict_price_with (_create_cache_key env) env.

(** [get_prediction_history]; the repository's [skip] is left to its
    default. *)
Definition get_prediction_history (env : Env) (limit : Z)
    : M (list PredictionRecord.t) :=
  repository_get_all_predictions env limit 0.

(** [clear_cache] *)
Definition clear_cache : M unit :=
  let* _ := modify (fun w => with_cache (SimpleCache.clear (cache w)) w) in
  logger (INFO (Msg "Prediction cache cleared")).

End PredictionService.

(* ================================================================== *)
(** * HTTP routes                                                      *)
(* ================================================================== *)

(** routers/v1/predictions.py *)
Module Router.

Definition HTTP_200_OK : Z := 200.
Definition HTTP_400_BAD_REQUEST : Z := 400.
Definition HTTP_500_INTERNAL_SERVER_ERROR : Z := 500.

(** POST /predict, over the service method it awaits. *)
Definition predict_price_with
    (service_predict_price : LaptopFeatures -> M PredictionResponse.t)
    (features : LaptopFeatures) : M PredictionResponse.t :=
  try_except (service_predict_price features)
    (fun e =>
       raise (HTTPException HTTP_500_INTERNAL_SERVER_ERROR
                ("Prediction failed: " +:+ str_exn e))).

Definition predict_price (env : Env) : LaptopFeatures -> M PredictionResponse.t :=
  predict_price_with (PredictionService.predict_price env).

(** GET /predictions *)
Definition get_prediction_history (env : Env) (limit : Z)
    : M (list PredictionRecord.t) :=
  if (limit >? 1000)%Z
  then raise (HTTPException HTTP_400_BAD_REQUEST "Limit cannot exceed 1000")
  else PredictionService.get_prediction_history env limit.

(** The status of the response the framework sends: that of an
    [HTTPException], 500 for any other exception. *)
Definition status_code {A} (r : result A) : Z :=
  match r with
  | Ok _ => HTTP_200_OK
  | Raise (HTTPException code _) => code
  | Raise _ => HTTP_500_INTERNAL_SERVER_ERROR
  end.

End Router.

(* ================================================================== *)
(** * Event loop                                                       *)
(* ================================================================== *)

(** The event loop runs a created task after the coroutine that created
    it has returned; whatever the task returns or raises is dropped. *)
Definition run_task (env : Env) (t : Task) (w : World) : World :=
  match t with
  | SavePredictionRecord features response =>
      snd (PredictionService._save_prediction_record env features response w)
  end.

Definition run_pending_tasks (env : Env) (w : World) : World :=
  fold_left (fun w' t => run_task env t w') (tasks w) (with_tasks [] w).

(** A request to POST /predict, over the cache-key method of the
    service: the handler's outcome is what the caller receives, and the
    task it created runs afterwards. *)
Definition serve_predict_with
    (create_cache_key : LaptopFeatures -> result string)
    (env : Env) (features : LaptopFeatures) (w : World)
    : result PredictionResponse.t * World :=
  let '(response, w') :=
    Router.predict_price_with
      (PredictionService.predict_price_with create_cache_key env)
      features w in
  (response, run_pending_tasks env w').

Definition serve_predict (env : Env) : LaptopFeatures -> World
    -> result PredictionResponse.t * World :=
  serve_predict_with (PredictionService._create_cache_key env) env.

(** The error [load_model] raises for the first file that is not at its
    configured path, if any. *)
Definition missing_file (env : Env) : option exn :=
  if negb (path_exists env (settings_model_path env))
  then Some (FileNotFoundError "Model file not found: "
               (settings_model_path env))
  else if negb (path_exists env (settings_data_path env))
  then Some (FileNotFoundError "Data file not found: "
               (settings_data_path env))
  else None.

(** The record that [_save_prediction_record] builds at time [now]. *)
Definition record_of (env : Env) (now : Q) (features : dict)
    (response : PredictionResponse.t) : PredictionRecord.t :=
  {| PredictionRecord.input_features := features;
     PredictionRecord.output_prediction :=
       PredictionResponse.predicted_price response;
     PredictionRecord.price_formatted :=
       PredictionResponse.price_formatted response;
     PredictionRecord.timestamp := isoformat env now;
     PredictionRecord.prediction_id :=
       PredictionResponse.prediction_id response |}.

(** A deployment used in the examples: both files present or both
    absent, the database up or down, a regressor that answers in log
    scale. *)
Definition sample_env (files_present db_up : bool) : Env :=
  {| settings_model_path := "ml_model/linear_regression.pkl";
     settings_data_path := "ml_model/df.pkl";
     path_exists := fun _ => files_present;
     pickle_load := fun path =>
       if String.eqb path "ml_model/df.pkl" then Ok (Unpickled 1)
       else Ok (Unpickled 0);
     model_predict := fun _ _ => Ok 11%R;
     hash_items := fun _ => 42%Z;
     uuid4 := fun n => "uuid-" +:+ str_int (Z.of_nat n);
     isoformat := fun _ => "2025-01-01T00:00:00+00:00";
     save_prediction := fun record =>
       if db_up then Ok (PredictionRecord.prediction_id record)
       else Raise (OtherError "ServerSelectionTimeoutError");
     get_all_predictions := fun _ _ =>
       if db_up then Ok []
       else Raise (OtherError "ServerSelectionTimeoutError") |}.

Definition sample_response : PredictionResponse.t :=
  {| PredictionResponse.prediction_id := "uuid-0";
     PredictionResponse.predicted_price := 59874;
     PredictionResponse.price_formatted := "₹59,874.00";
     PredictionResponse.confidence := None;
     PredictionResponse.features := example_features |}.

(** The characters of a string that satisfy a test, in order. *)
Fixpoint string_filter (p : ascii -> bool) (s : string) : string :=
  match s with
  | EmptyString => EmptyString
  | String c s' =>
      if p c then String c (string_filter p s') else string_filter p s'
  end.

Definition remove_commas : string -> string :=
  string_filter (fun c => negb (Ascii.eqb c comma)).

Definition keep_digits : string -> string := string_filter is_digit.

(** The body that carries the fields of a validated record, as the
    response of POST /predict echoes them. *)
Definition echo_body (f : LaptopFeatures) : RawBody := {|
  raw_company := Some (Company.value (company f));
  raw_type_name := Some (TypeName.value (type_name f));
  raw_ram := Some (ram f);
  raw_weight := Some (weight f);
  raw_touchscreen := Some (touchscreen f);
  raw_ips := Some (ips f);
  raw_ppi := Some (ppi f);
  raw_cpu_brand := Some (CpuBrand.value (cpu_brand f));
  raw_hdd := Some (hdd f);
  raw_ssd := Some (ssd f);
  raw_gpu_brand := Some (GpuBrand.value (gpu_brand f));
  raw_os := Some (OS.value (os f))
|}.

(** frontend/app.py, [LaptopPricePredictorFrontend.__init__]: the
    options the form offers. *)
Module Frontend.
Definition available_companies : list string :=
  ["Apple"; "HP"; "Acer"; "Asus"; "Dell"; "Lenovo";
   "MSI"; "Toshiba"; "Samsung"; "Other"].
Definition available_types : list string :=
  ["Ultrabook"; "Notebook"; "Netbook"; "Gaming";
   "2 in 1 Convertible"; "Workstation"].
Definition available_cpus : list string :=
  ["Intel Core i3"; "Intel Core i5"; "Intel Core i7";
   "Intel Core i9"; "AMD Processor"; "Other Intel Processor"].
Definition available_gpus : list string := ["Intel"; "AMD"; "Nvidia"].
Definition available_os : list string :=
  ["Mac"; "Windows"; "Others/No OS/Linux"].
End Frontend.

(** The names of the fields of [LaptopFeatures], in declaration order. *)
Definition field_names : list string :=
  ["company"; "type_name"; "ram"; "weight"; "touchscreen"; "ips"; "ppi";
   "cpu_brand"; "hdd"; "ssd"; "gpu_brand"; "os"].

(** The one-row frame of a validated record: the columns in the order
    and under the names [preprocess_features] gives them. *)
Definition feature_frame (f : LaptopFeatures) : list (string * PyValue) :=
  [("Company", PyStr (Company.value (company f)));
   ("TypeName", PyStr (TypeName.value (type_name f)));
   ("Ram", PyInt (ram f));
   ("Weight", PyFloat (weight f));
   ("Touchscreen", PyInt (touchscreen f));
   ("Ips", PyInt (ips f));
   ("ppi", PyFloat (ppi f));
   ("Cpu brand", PyStr (CpuBrand.value (cpu_brand f)));
   ("HDD", PyInt (hdd f));
   ("SSD", PyInt (ssd f));
   ("Gpu brand", PyStr (GpuBrand.value (gpu_brand f)));
   ("os", PyStr (OS.value (os f)))].

(** The process at a later reading of the clock. *)
Definition with_clock (now : Q) (w : World) : World :=
  {| model := model w; df := df w; is_loaded := is_loaded w;
     cache := cache w; clock := now; uuid_count := uuid_count w;
     log := log w; tasks := tasks w; db_calls := db_calls w |}.

(* ================================================================== *)
(** * Prediction repository                                            *)
(* ================================================================== *)

(** repositories/mongodb_curd_operations_repository.py, over a reachable
    collection.  The collection is the list of its documents in natural
    order: [insert_one] appends, [find_one] and [delete_one] take the
    first match.  A method that draws an identifier or reads the clock
    takes the value drawn or read as an argument. *)
Module MongoDBRepository.

(** A stored document: the dumped [PredictionRecord] under the [_id]
    that [insert_one] gives it. *)
Record Document : Type := {
  _id : nat;
  data : PredictionRecord.t
}.

Definition has_prediction_id (prediction_id : string) (d : Document) : bool :=
  String.eqb (PredictionRecord.prediction_id (data d)) prediction_id.

(** The filter [{"input_features.company": company}]. *)
Definition has_company (company : string) (d : Document) : bool :=
  match PredictionRecord.input_features (data d) !! "company" with
  | Some (PyStr c) => String.eqb c company
  | _ => false
  end.

(** [insert_prediction]: the identifier and the timestamp of the data
    are overwritten before the insertion; the new identifier is
    returned. *)
Definition insert_prediction (new_uuid now_iso : string) (object_id : nat)
    (prediction_data : PredictionRecord.t) (collection : list Document)
    : string * list Document :=
  let prediction_id := new_uuid in
  let prediction_data :=
    {| PredictionRecord.input_features :=
         PredictionRecord.input_features prediction_data;
       PredictionRecord.output_prediction :=
         PredictionRecord.output_prediction prediction_data;
       PredictionRecord.price_formatted :=
         PredictionRecord.price_formatted prediction_data;
       PredictionRecord.timestamp := now_iso;
       PredictionRecord.prediction_id := prediction_id |} in
  (prediction_id,
   (collection ++ [{| _id := object_id; data := prediction_data |}])%list).

(** [find_prediction_by_id] *)
Definition find_prediction_by_id (prediction_id : string)
    (collection : list Document) : option Document :=
  List.find (has_prediction_id prediction_id) collection.

(** [delete_one(filter)]: the number of documents deleted and the
    collection without its first match. *)
Fixpoint delete_one (filter : Document -> bool) (collection : list Document)
    : Z * list Document :=
  match collection with
  | [] => (0%Z, [])
  | d :: rest =>
      if filter d then (1%Z, rest)
      else let '(n, rest') := delete_one filter rest in (n, d :: rest')
  end.

(** [delete_many(filter)]: the number of documents deleted and the
    collection without the matches. *)
Definition delete_many (filter : Document -> bool)
    (collection : list Document) : Z * list Document :=
  (Z.of_nat (length (List.filter filter collection)),
   List.filter (fun d => negb (filter d)) collection).

(** [delete_prediction] *)
Definition delete_prediction (prediction_id : string)
    (collection : list Document) : bool * list Document :=
  let '(deleted_count, after) :=
    delete_one (has_prediction_id prediction_id) collection in
  ((deleted_count >? 0)%Z, after).

(** [delete_predictions_by_company] *)
Definition delete_predictions_by_company (company : string)
    (collection : list Document) : Z * list Document :=
  delete_many (has_company company) collection.

(** [get_predictions_count] *)
Definition get_predictions_count (collection : list Document) : Z :=
  Z.of_nat (length collection).

End MongoDBRepository.

(** repositories/prediction_repository.py *)
Module PredictionRepository.

(** [save_prediction]: the dump of the record is inserted. *)
Definition save_prediction (new_uuid now_iso : string) (object_id : nat)
    (prediction_record : PredictionRecord.t)
    (collection : list MongoDBRepository.Document)
    : string * list MongoDBRepository.Document :=
  MongoDBRepository.insert_prediction new_uuid now_iso object_id
    prediction_record collection.

(** [get_prediction]: the record of the document found; [_id] is not a
    field of [PredictionRecord] and is ignored. *)
Definition get_prediction (prediction_id : string)
    (collection : list MongoDBRepository.Document)
    : option PredictionRecord.t :=
  match MongoDBRepository.find_prediction_by_id prediction_id collection with
  | Some record => Some (MongoDBRepository.data record)
  | None => None
  end.

Definition delete_prediction := MongoDBRepository.delete_prediction.

End PredictionRepository.

(** GET /predictions/{prediction_id} of routers/v1/predictions.py, through
    [PredictionService.get_prediction_by_id], and
    DELETE /{prediction_id} of routers/v1/crud_operations.py. *)
Module StoredPredictionRoutes.

Definition HTTP_404_NOT_FOUND : Z := 404.

Definition get_prediction (prediction_id : string)
    (collection : list MongoDBRepository.Document)
    : result PredictionRecord.t :=
  match PredictionRepository.get_prediction prediction_id collection with
  | Some prediction => Ok prediction
  | None => Raise (HTTPException HTTP_404_NOT_FOUND "Prediction not found")
  end.

(** The answer of the route: the message and the identifier. *)
Definition delete_prediction (prediction_id : string)
    (collection : list MongoDBRepository.Document)
    : result (string * string) * list MongoDBRepository.Document :=
  let '(success, after) :=
    PredictionRepository.delete_prediction prediction_id collection in
  if negb success
  then (Raise (HTTPException HTTP_404_NOT_FOUND "Prediction not found"), after)
  else (Ok ("Prediction deleted successfully", prediction_id), after).

End StoredPredictionRoutes.

(** The identifiers under which the documents of a collection are
    stored, and a record and a collection used in the examples. *)
Definition stored_ids (collection : list MongoDBRepository.Document)
    : list string :=
  map (fun d => PredictionRecord.prediction_id (MongoDBRepository.data d))
      collection.

Definition sample_record (prediction_id company : string)
    : PredictionRecord.t :=
  {| PredictionRecord.input_features := {[ "company" := PyStr company ]};
     PredictionRecord.output_prediction := 59874;
     PredictionRecord.price_formatted := "₹59,874.00";
     PredictionRecord.timestamp := "2025-01-01T00:00:00+00:00";
     PredictionRecord.prediction_id := prediction_id |}.

Definition sample_collection : list MongoDBRepository.Document :=
  [ {| MongoDBRepository._id := 0;
       MongoDBRepository.data := sample_record "id-a" "Dell" |};
    {| MongoDBRepository._id := 1;
       MongoDBRepository.data := sample_record "id-b" "HP" |};
    {| MongoDBRepository._id := 2;
       MongoDBRepository.data := sample_record "id-c" "Dell" |} ].

(* ================================================================== *)
(** * Properties                                                       *)
(* ================================================================== *)

Section PriceNormalizer.
Open Scope R_scope.

Lemma py_clamp_is_clamp (lo hi x : R) :
  lo <= hi -> py_max lo (py_min x hi) = clamp lo hi x.
Proof.
  intros Hb. unfold py_max, py_min, clamp.
  destruct (Rlt_dec hi x) as [H1|H1].
  - destruct (Rgt_dec hi lo), (Rlt_dec x lo); lra.
  - destruct (Rgt_dec x lo), (Rlt_dec x lo); lra.
Qed.

Lemma py_clamp_bounds (lo hi x : R) :
  lo <= hi -> lo <= py_max lo (py_min x hi) <= hi.
Proof.
  intros Hb. unfold py_max, py_min.
  destruct (Rlt_dec hi x).
  - destruct (Rgt_dec hi lo); lra.
  - destruct (Rgt_dec x lo); lra.
Qed.

Lemma apply_price_correction_value (price : R) :
  fst (_apply_price_correction price)
  = py_max 10000
      (py_min (spec_scale 10000 100 (spec_exponentiate price)) 500000).
Proof.
  unfold _apply_price_correction, spec_scale, spec_exponentiate.
  destruct (Rlt_dec price 100).
  - destruct (Rlt_dec (exp price) 10000); reflexivity.
  - destruct (Rlt_dec price 10000); reflexivity.
Qed.

(** C1. For every real raw model output, the price returned by the
  service-layer correction [_apply_price_correction] is the one the
  three steps of the specification give, in this order: the exponential
  of the raw value when it is below 100, then that value times 100 when
  it is below 10000, then the clamp into [10000, 500000]. *)
Theorem service_correction_refines_spec (raw : R) :
  fst (_apply_price_correction raw) = spec_service_correction raw.
Proof.
  rewrite apply_price_correction_value. unfold spec_service_correction.
  apply py_clamp_is_clamp. lra.
Qed.

(** C2. For every real raw input the model-layer normalisation
  [_process_prediction] returns a value in [1000, 500000] and the
  service-layer normalisation [_apply_price_correction] returns a value
  in [10000, 500000]. *)
Theorem normalisation_within_band (raw : R) :
  1000 <= _process_prediction raw <= 500000
  /\ 10000 <= fst (_apply_price_correction raw) <= 500000.
Proof.
  split.
  - unfold _process_prediction. apply py_clamp_bounds. lra.
  - rewrite apply_price_correction_value. apply py_clamp_bounds. lra.
Qed.

End PriceNormalizer.

Section FeatureSchema.

Ltac field_case :=
  match goal with
  | |- context [match ?r with inl _ => _ | inr _ => _ end] =>
      destruct r eqn:?
  end.

(** A failed validation reports the errors of all the fields. *)
Lemma model_validate_inl (b : RawBody) (errs : list ErrorDetails) :
  model_validate b = inl errs -> errs = all_field_errors b.
Proof.
  unfold model_validate, all_field_errors.
  do 12 (field_case; [intros [= <-]; reflexivity|]).
  discriminate.
Qed.

(** A successful validation: every field validator accepted its input
    and the record holds what they returned. *)
Lemma model_validate_inr (b : RawBody) (f : LaptopFeatures) :
  model_validate b = inr f ->
  company_field (raw_company b) = inr (company f)
  /\ type_name_field (raw_type_name b) = inr (type_name f)
  /\ ram_field (raw_ram b) = inr (ram f)
  /\ weight_field (raw_weight b) = inr (weight f)
  /\ touchscreen_field (raw_touchscreen b) = inr (touchscreen f)
  /\ ips_field (raw_ips b) = inr (ips f)
  /\ ppi_field (raw_ppi b) = inr (ppi f)
  /\ cpu_brand_field (raw_cpu_brand b) = inr (cpu_brand f)
  /\ hdd_field (raw_hdd b) = inr (hdd f)
  /\ ssd_field (raw_ssd b) = inr (ssd f)
  /\ gpu_brand_field (raw_gpu_brand b) = inr (gpu_brand f)
  /\ os_field (raw_os b) = inr (os f).
Proof.
  unfold model_validate.
  do 12 (field_case; [discriminate|]).
  intros [= <-]. cbn. repeat split; reflexivity.
Qed.

(** A field whose validator rejects makes the validation fail, with a
    line for that field. *)
Lemma model_validate_field_error (b : RawBody) (loc : string) (e : ErrorType) :
  In (loc, e) (all_field_errors b) ->
  exists errs, model_validate b = inl errs /\ In (loc, e) errs.
Proof.
  intros Hin. destruct (model_validate b) as [errs|f] eqn:E.
  - exists errs. split; [reflexivity|].
    by rewrite (model_validate_inl _ _ E).
  - exfalso. apply model_validate_inr in E.
    destruct E as (E1&E2&E3&E4&E5&E6&E7&E8&E9&E10&E11&E12).
    unfold all_field_errors in Hin.
    rewrite E1, E2, E3, E4, E5, E6, E7, E8, E9, E10, E11, E12 in Hin.
    exact Hin.
Qed.

Lemma In_error_at {B} (loc l : string) (e : ErrorType) (r : ErrorType + B) :
  In (l, e) (error_at loc r) -> l = loc /\ r = inl e.
Proof.
  destruct r as [e'|x]; cbn; [|tauto].
  intros [[= <- <-]|[]]. done.
Qed.

Lemma validate_ram_spec (v : Z) : validate_ram v = Ok v <-> In v valid_ram.
Proof.
  unfold validate_ram.
  destruct (existsb (Z.eqb v) valid_ram) eqn:E; cbn [negb].
  - split; [intros _|reflexivity].
    apply existsb_exists in E. destruct E as (x & Hx & Heq).
    apply Z.eqb_eq in Heq. by subst.
  - split; [discriminate|]. intros Hin. exfalso.
    assert (existsb (Z.eqb v) valid_ram = true); [|congruence].
    apply existsb_exists. exists v. split; [done|apply Z.eqb_refl].
Qed.

Lemma valid_ram_range (v : Z) : In v valid_ram -> (2 <= v <= 64)%Z.
Proof. cbn. intuition lia. Qed.

(** The RAM field accepts a present value exactly when it is one of the
    nine values. *)
Lemma ram_field_spec (v : Z) :
  (In v valid_ram -> ram_field (Some v) = inr v)
  /\ (~ In v valid_ram -> exists e, ram_field (Some v) = inl e).
Proof.
  unfold ram_field, Field_required, after_validator, int_validator. split.
  - intros Hin. pose proof (valid_ram_range v Hin).
    destruct (Z.ltb_spec v 2); [lia|]. destruct (Z.ltb_spec 64 v); [lia|].
    apply validate_ram_spec in Hin. by rewrite Hin.
  - intros Hnin.
    destruct (v <? 2)%Z; [by eexists|]. destruct (64 <? v)%Z; [by eexists|].
    destruct (validate_ram v) as [y|e] eqn:E.
    + exfalso. apply Hnin, validate_ram_spec. rewrite E.
      unfold validate_ram in E. destruct (negb _); congruence.
    + destruct e; by eexists.
Qed.

(** C8. For every body that carries a RAM value [v]: when [v] is one of
    2, 4, 6, 8, 12, 16, 24, 32, 64 the validator method and the RAM field
    accept it and no validation error is reported for the field; when
    [v] is any other value the validation of the body fails with an error
    reported for the field. *)
Theorem ram_enumerated_values (b : RawBody) (v : Z) :
  raw_ram b = Some v ->
  (In v valid_ram ->
     validate_ram v = Ok v
     /\ ram_field (raw_ram b) = inr v
     /\ forall errs e, model_validate b = inl errs -> ~ In ("ram", e) errs)
  /\ (~ In v valid_ram ->
       exists errs e, model_validate b = inl errs /\ In ("ram", e) errs).
Proof.
  intros Hram. rewrite Hram. split.
  - intros Hin. split; [by apply validate_ram_spec|].
    pose proof (proj1 (ram_field_spec v) Hin) as Hok.
    split; [exact Hok|].
    intros errs e Hfail Hmem.
    rewrite (model_validate_inl _ _ Hfail) in Hmem.
    unfold all_field_errors in Hmem. rewrite Hram, Hok in Hmem.
    repeat (apply in_app_or in Hmem; destruct Hmem as [Hmem|Hmem]);
      apply In_error_at in Hmem; destruct Hmem as [? ?]; discriminate.
  - intros Hnin. destruct (proj2 (ram_field_spec v) Hnin) as [e He].
    destruct (model_validate_field_error b "ram" e) as (errs & ? & ?).
    + unfold all_field_errors. rewrite Hram, He.
      rewrite !in_app_iff. cbn. tauto.
    + by exists errs, e.
Qed.

Lemma Field_default_zero (lo hi : Z) (raw : option Z) :
  (lo <= 0 <= hi)%Z ->
  Field_default 0%Z (int_validator lo hi) (Some (default 0%Z raw))
  = Field_default 0%Z (int_validator lo hi) raw.
Proof.
  intros H. destruct raw as [v|]; [reflexivity|].
  cbn. unfold int_validator.
  destruct (Z.ltb_spec 0 lo); [lia|]. destruct (Z.ltb_spec hi 0); [lia|].
  reflexivity.
Qed.

Lemma with_zero_defaults_validate (b : RawBody) :
  model_validate (with_zero_defaults b) = model_validate b.
Proof.
  unfold model_validate, with_zero_defaults; cbn -[Field_default].
  unfold touchscreen_field, ips_field, hdd_field, ssd_field.
  rewrite !Field_default_zero by lia. reflexivity.
Qed.

Lemma missing_required (b : RawBody) (loc : string) :
  In (loc, missing) (all_field_errors b) ->
  exists errs, model_validate b = inl errs /\ In (loc, missing) errs.
Proof. apply model_validate_field_error. Qed.

(** C5 (amended). An omitted touchscreen, IPS, HDD-size or SSD-size field
    is validated as if 0 had been given, and the record then holds 0 for
    it; each of company, type, RAM, weight, pixel density, CPU class, GPU
    class and OS is required: a body that omits one of them fails
    validation with a [missing] error for that field. *)
Theorem defaults_and_required_fields (b : RawBody) :
  model_validate b = model_validate (with_zero_defaults b)
  /\ (forall f, model_validate b = inr f ->
        (raw_touchscreen b = None -> touchscreen f = 0%Z)
        /\ (raw_ips b = None -> ips f = 0%Z)
        /\ (raw_hdd b = None -> hdd f = 0%Z)
        /\ (raw_ssd b = None -> ssd f = 0%Z))
  /\ (forall loc,
        (loc = "company" /\ raw_company b = None)
        \/ (loc = "type_name" /\ raw_type_name b = None)
        \/ (loc = "ram" /\ raw_ram b = None)
        \/ (loc = "weight" /\ raw_weight b = None)
        \/ (loc = "ppi" /\ raw_ppi b = None)
        \/ (loc = "cpu_brand" /\ raw_cpu_brand b = None)
        \/ (loc = "gpu_brand" /\ raw_gpu_brand b = None)
        \/ (loc = "os" /\ raw_os b = None) ->
        exists errs, model_validate b = inl errs /\ In (loc, missing) errs).
Proof.
  split; [by rewrite with_zero_defaults_validate|]. split.
  - intros f Hok. apply model_validate_inr in Hok.
    destruct Hok as (_&_&_&_&Ht&Hi&_&_&Hh&Hs&_&_).
    split; [|split; [|split]]; intros Hnone;
      [rewrite Hnone in Ht|rewrite Hnone in Hi
      |rewrite Hnone in Hh|rewrite Hnone in Hs]; cbn in *; congruence.
  - intros loc Hloc. apply missing_required. unfold all_field_errors.
    rewrite !in_app_iff.
    destruct Hloc as [[-> E]|[[-> E]|[[-> E]|[[-> E]|[[-> E]|[[-> E]|[[-> E]|[-> E]]]]]]]];
      rewrite E; cbn; tauto.
Qed.

Lemma defaults_and_required_fields_witness :
  (exists f, model_validate example_body_minimal = inr f
             /\ touchscreen f = 0%Z /\ ips f = 0%Z
             /\ hdd f = 0%Z /\ ssd f = 0%Z)
  /\ (exists errs,
        model_validate
          {| raw_company := None; raw_type_name := Some "Notebook";
             raw_ram := Some 8%Z; raw_weight := Some 2%Q;
             raw_touchscreen := None; raw_ips := None;
             raw_ppi := Some (14121 # 100)%Q;
             raw_cpu_brand := Some "Intel Core i5";
             raw_hdd := None; raw_ssd := None;
             raw_gpu_brand := Some "Intel"; raw_os := Some "Windows" |}
        = inl errs /\ In ("company", missing) errs).
Proof.
  split.
  - destruct (defaults_and_required_fields example_body_minimal)
      as (_ & Hdef & _).
    eexists. split; [reflexivity|].
    edestruct Hdef as (H1 & H2 & H3 & H4); [reflexivity|].
    split; [|split; [|split]];
      [apply H1|apply H2|apply H3|apply H4]; reflexivity.
  - apply defaults_and_required_fields. left. split; reflexivity.
Defined.

(** C5 as stated fails: a body that omits the HDD and SSD sizes (and the
    two flags) is accepted, with 0 for each. *)
Lemma hdd_ssd_omitted_is_accepted :
  raw_hdd example_body_minimal = None
  /\ raw_ssd example_body_minimal = None
  /\ model_validate example_body_minimal
     = inr {| company := Company.DELL; type_name := TypeName.NOTEBOOK;
              ram := 8; weight := 2; touchscreen := 0; ips := 0;
              ppi := 14121 # 100; cpu_brand := CpuBrand.INTEL_CORE_I5;
              hdd := 0; ssd := 0; gpu_brand := GpuBrand.INTEL;
              os := OS.WINDOWS |}.
Proof. repeat split. Qed.

Lemma ram_enumerated_values_witness :
  ram_field (raw_ram example_body) = inr 8%Z
  /\ exists errs e,
       model_validate
         {| raw_company := Some "Dell"; raw_type_name := Some "Notebook";
            raw_ram := Some 5%Z; raw_weight := Some 2%Q;
            raw_touchscreen := None; raw_ips := None;
            raw_ppi := Some (14121 # 100)%Q;
            raw_cpu_brand := Some "Intel Core i5";
            raw_hdd := None; raw_ssd := None;
            raw_gpu_brand := Some "Intel"; raw_os := Some "Windows" |}
       = inl errs /\ In ("ram", e) errs.
Proof.
  split.
  - apply (ram_enumerated_values example_body 8); [reflexivity|].
    cbn. tauto.
  - eapply (ram_enumerated_values _ 5); [reflexivity|].
    cbn. lia.
Defined.

End FeatureSchema.

Section ResultCache.
Context {V : Type}.
Local Open Scope Q_scope.
Implicit Types (c : SimpleCache.t V) (k : string) (v : V).

Lemma get_after_set c k v (t_set t_get : Q) :
  SimpleCache.get t_get k (SimpleCache.set t_set k v c)
  = if Qlt_le_dec (t_get - t_set) (SimpleCache._ttl c)
    then (Some v, SimpleCache.set t_set k v c)
    else (None, {| SimpleCache._cache := delete k (SimpleCache._cache c);
                   SimpleCache._ttl := SimpleCache._ttl c |}).
Proof.
  unfold SimpleCache.get, SimpleCache.set. cbn [SimpleCache._cache SimpleCache._ttl].
  rewrite lookup_insert_eq.
  destruct (Qlt_le_dec _ _); [reflexivity|].
  by rewrite delete_insert_eq.
Qed.

(** C4. A [set(k, v)] at time [t_set] followed by a [get(k)] at time
    [t_get] returns [v] and leaves the cache as it is when the elapsed
    time [t_get - t_set] is strictly below the TTL; when the elapsed time
    has reached the TTL the [get] returns [None] and the cache it leaves
    has no entry for [k].  A cache built with no argument has a TTL of 300
    seconds. *)
Theorem cache_set_get_ttl c k v (t_set t_get : Q) :
  let c1 := SimpleCache.set t_set k v c in
  (t_get - t_set < SimpleCache._ttl c ->
     SimpleCache.get t_get k c1 = (Some v, c1))
  /\ (SimpleCache._ttl c <= t_get - t_set ->
       fst (SimpleCache.get t_get k c1) = None
       /\ SimpleCache._cache (snd (SimpleCache.get t_get k c1)) !! k = None
       /\ SimpleCache._cache (snd (SimpleCache.get t_get k c1))
          = delete k (SimpleCache._cache c))
  /\ SimpleCache._ttl (SimpleCache.init (V := V) SimpleCache.default_ttl)
     = 300.
Proof.
  intros c1. subst c1. rewrite get_after_set.
  split; [|split].
  - intros Hlt. destruct (Qlt_le_dec _ _) as [_|Hge]; [reflexivity|].
    exfalso. exact (Qlt_not_le _ _ Hlt Hge).
  - intros Hge. destruct (Qlt_le_dec _ _) as [Hlt|_].
    + exfalso. exact (Qlt_not_le _ _ Hlt Hge).
    + cbn [fst snd SimpleCache._cache]. rewrite lookup_delete_eq. done.
  - reflexivity.
Qed.

End ResultCache.

Lemma cache_set_get_ttl_witness :
  SimpleCache.get 1299%Q "prediction:1" (SimpleCache.set 1000 "prediction:1" 7%Z (SimpleCache.init 300))
  = (Some 7%Z, SimpleCache.set 1000 "prediction:1" 7%Z (SimpleCache.init 300))
  /\ fst (SimpleCache.get 1300 "prediction:1"
            (SimpleCache.set 1000 "prediction:1" 7%Z (SimpleCache.init 300)))
     = None.
Proof.
  split.
  - apply (cache_set_get_ttl (SimpleCache.init 300) "prediction:1" 7%Z 1000 1299).
    reflexivity.
  - apply (cache_set_get_ttl (SimpleCache.init 300) "prediction:1" 7%Z 1000 1300).
    discriminate.
Defined.

Section PriceFormatting.

Lemma is_digit_digit (d : Z) : (0 <= d <= 9)%Z -> is_digit (digit d) = true.
Proof.
  intros H.
  assert (Hd : In d [0; 1; 2; 3; 4; 5; 6; 7; 8; 9]%Z) by (cbn; lia).
  cbn in Hd. intuition (subst; reflexivity).
Qed.

Lemma digit_value (d : Z) :
  (0 <= d <= 9)%Z -> (Z.of_nat (nat_of_ascii (digit d)) - 48 = d)%Z.
Proof.
  intros H.
  assert (Hd : In d [0; 1; 2; 3; 4; 5; 6; 7; 8; 9]%Z) by (cbn; lia).
  cbn in Hd. intuition (subst; reflexivity).
Qed.

Lemma string_forall_app (p : ascii -> bool) (s1 s2 : string) :
  string_forall p (s1 +:+ s2) = string_forall p s1 && string_forall p s2.
Proof.
  induction s1 as [|c s1 IH]; simpl; [reflexivity|].
  rewrite IH. apply andb_assoc.
Qed.

Lemma contains_char_app (c : ascii) (s1 s2 : string) :
  contains_char c (s1 +:+ s2) = contains_char c s1 || contains_char c s2.
Proof.
  induction s1 as [|c' s1 IH]; simpl; [reflexivity|].
  rewrite IH. apply orb_assoc.
Qed.

Lemma digits_value_from_app (acc : Z) (s1 s2 : string) :
  digits_value_from acc (s1 +:+ s2)
  = digits_value_from (digits_value_from acc s1) s2.
Proof.
  revert acc. induction s1 as [|c s1 IH]; intros acc; simpl; [reflexivity|].
  apply IH.
Qed.

Lemma string_forall_weaken (p q : ascii -> bool) (s : string) :
  (forall c, p c = true -> q c = true) ->
  string_forall p s = true -> string_forall q s = true.
Proof.
  intros Hpq. induction s as [|c s IH]; cbn; [done|].
  rewrite !andb_true_iff. intros [? ?]. auto.
Qed.

Lemma decimal_fuel_S (fuel : nat) (n : Z) :
  decimal_fuel (S fuel) n
  = if (n <? 10)%Z then String (digit n) ""
    else decimal_fuel fuel (n / 10) +:+ String (digit (n mod 10)) "".
Proof. reflexivity. Qed.

(** With [n < 2 ^ fuel] and some fuel, the fuel is never exhausted: the
    string is made of digits and denotes [n]. *)
Lemma decimal_fuel_digits (fuel : nat) (n : Z) :
  (0 <= n < 2 ^ Z.of_nat (S fuel))%Z ->
  string_forall is_digit (decimal_fuel (S fuel) n) = true
  /\ digits_value (decimal_fuel (S fuel) n) = n.
Proof.
  revert n. induction fuel as [|fuel IH]; intros n Hn;
    rewrite decimal_fuel_S; destruct (Z.ltb_spec n 10) as [Hlt|Hge].
  - cbn [string_forall]. rewrite is_digit_digit by lia.
    split; [reflexivity|].
    unfold digits_value. cbn [digits_value_from].
    rewrite digit_value by lia. lia.
  - exfalso. change (2 ^ Z.of_nat 1)%Z with 2%Z in Hn. lia.
  - cbn [string_forall]. rewrite is_digit_digit by lia.
    split; [reflexivity|].
    unfold digits_value. cbn [digits_value_from].
    rewrite digit_value by lia. lia.
  - assert (Hq : (0 <= n / 10 < 2 ^ Z.of_nat (S fuel))%Z).
    { split; [apply Z.div_pos; lia|].
      apply Z.div_lt_upper_bound; [lia|].
      rewrite (Nat2Z.inj_succ (S fuel)), Z.pow_succ_r in Hn by lia. lia. }
    destruct (IH _ Hq) as (Hd & Hv).
    assert (Hm : (0 <= n mod 10 <= 9)%Z)
      by (pose proof (Z.mod_pos_bound n 10); lia).
    split.
    + rewrite string_forall_app, Hd. cbn [string_forall andb].
      by rewrite is_digit_digit.
    + unfold digits_value in *.
      rewrite digits_value_from_app, Hv. cbn [digits_value_from].
      rewrite digit_value by lia.
      pose proof (Z.div_mod n 10). lia.
Qed.

Lemma log2_fuel_bound (n : Z) :
  (0 <= n)%Z -> (0 <= n < 2 ^ Z.of_nat (S (Z.to_nat (Z.log2 n))))%Z.
Proof.
  intros Hn. split; [done|].
  rewrite Nat2Z.inj_succ, Z2Nat.id by apply Z.log2_nonneg.
  destruct (Z.eq_dec n 0%Z) as [->|Hne]; [reflexivity|].
  apply Z.log2_spec. lia.
Qed.

(** [decimal n] is the decimal numeral of [n]. *)
Lemma decimal_digits (n : Z) :
  (0 <= n)%Z ->
  string_forall is_digit (decimal n) = true /\ digits_value (decimal n) = n.
Proof.
  intros Hn. apply decimal_fuel_digits, log2_fuel_bound, Hn.
Qed.

Lemma pad2_digits (n : Z) :
  (0 <= n < 100)%Z ->
  exists d1 d2, pad2 n = String d1 (String d2 "")
    /\ is_digit d1 = true /\ is_digit d2 = true.
Proof.
  intros Hn. exists (digit (n / 10)), (digit (n mod 10)).
  split; [reflexivity|].
  pose proof (Z.mod_pos_bound n 10).
  assert (0 <= n / 10 <= 9)%Z.
  { split; [apply Z.div_pos; lia|]. apply Z.lt_succ_r.
    apply Z.div_lt_upper_bound; lia. }
  split; apply is_digit_digit; lia.
Qed.

Lemma pad3_digits (n : Z) :
  (0 <= n < 1000)%Z -> string_forall is_digit (pad3 n) = true.
Proof.
  intros Hn. unfold pad3.
  pose proof (Z.mod_pos_bound n 100).
  destruct (pad2_digits (n mod 100)) as (d1 & d2 & -> & H1 & H2); [lia|].
  cbn [string_forall]. rewrite H1, H2, is_digit_digit; [reflexivity|].
  split; [apply Z.div_pos; lia|]. apply Z.lt_succ_r.
  apply Z.div_lt_upper_bound; lia.
Qed.

Lemma is_digit_is_digit_or_comma (c : ascii) :
  is_digit c = true -> is_digit_or_comma c = true.
Proof. unfold is_digit_or_comma. intros ->. reflexivity. Qed.

(** The grouped integer part is made of digits and commas. *)
Lemma group_thousands_fuel_chars (fuel : nat) (n : Z) :
  (0 <= n)%Z ->
  string_forall is_digit_or_comma (group_thousands_fuel fuel n) = true.
Proof.
  revert n. induction fuel as [|fuel IH]; intros n Hn; [reflexivity|].
  cbn [group_thousands_fuel]. destruct (Z.ltb_spec n 1000) as [Hlt|Hge].
  - eapply string_forall_weaken; [apply is_digit_is_digit_or_comma|].
    by apply decimal_digits.
  - rewrite !string_forall_app, IH by (apply Z.div_pos; lia).
    cbn [string_forall andb].
    rewrite (string_forall_weaken is_digit is_digit_or_comma);
      [reflexivity|apply is_digit_is_digit_or_comma|].
    apply pad3_digits. pose proof (Z.mod_pos_bound n 1000). lia.
Qed.

(** From 1000 on the grouped integer part has a comma. *)
Lemma group_thousands_has_comma (n : Z) :
  (1000 <= n)%Z -> contains_char comma (group_thousands n) = true.
Proof.
  intros Hn. unfold group_thousands. cbn [group_thousands_fuel].
  destruct (Z.ltb_spec n 1000) as [Hlt|_]; [lia|].
  rewrite !contains_char_app. cbn [contains_char].
  rewrite Ascii.eqb_refl. cbn. apply orb_true_r.
Qed.

Lemma Int_part_lower (y : R) (k : Z) : (IZR k <= y)%R -> (k <= Int_part y)%Z.
Proof.
  intros Hk. destruct (base_Int_part y) as [_ Hup].
  assert (Hlt : (IZR (k - 1) < IZR (Int_part y))%R)
    by (rewrite minus_IZR; lra).
  apply lt_IZR in Hlt. lia.
Qed.

Lemma round_half_even_lower (y : R) (k : Z) :
  (IZR k <= y)%R -> (k <= round_half_even y)%Z.
Proof.
  intros Hk. apply Int_part_lower in Hk. unfold round_half_even.
  destruct (Rlt_dec _ _); [lia|].
  destruct (Rlt_dec _ _); [lia|].
  destruct (Z.even _); lia.
Qed.

(** For a price of at least 10000 the two formats of [float_format]:
    integer digits (grouped or not), a point, two digits. *)
Lemma fixed_2f_shape (grouping : bool) (price : R) :
  (10000 <= price)%R ->
  exists g d1 d2,
    fixed_2f grouping price = g +:+ "." +:+ String d1 (String d2 "")
    /\ is_digit d1 = true /\ is_digit d2 = true
    /\ (if grouping
        then string_forall is_digit_or_comma g = true
             /\ contains_char comma g = true
        else string_forall is_digit g = true).
Proof.
  intros Hp. unfold fixed_2f.
  set (cents := round_half_even (Rabs price * 100)).
  assert (Hc : (1000000 <= cents)%Z).
  { apply round_half_even_lower. rewrite Rabs_right by lra. lra. }
  assert (Hq : (10000 <= cents / 100)%Z)
    by (apply Z.div_le_lower_bound; lia).
  destruct (Rlt_dec price 0) as [Hneg|_]; [lra|].
  destruct (pad2_digits (cents mod 100)) as (d1 & d2 & -> & H1 & H2);
    [apply Z.mod_pos_bound; lia|].
  exists (if grouping then group_thousands (cents / 100)
          else decimal (cents / 100)), d1, d2.
  split; [reflexivity|]. split; [done|]. split; [done|].
  destruct grouping.
  - split; [apply group_thousands_fuel_chars; lia|].
    apply group_thousands_has_comma. lia.
  - apply decimal_digits. lia.
Qed.

(** C9. For every price of at least 10000 (the prices the pipeline
    produces), [format_price] returns, without logging an error, the
    rupee sign followed by the integer digits in comma-separated groups
    with at least one comma, a point and exactly two digits.  When the
    construction of this format raises and the handler's format is the
    float format, the result is the fallback: the rupee sign, the integer
    digits with no separator, a point and two digits, and the error is
    logged. *)
Theorem format_price_display (price : R) :
  (10000 <= price)%R ->
  (exists g d1 d2,
     format_price price
     = (Ok (rupee +:+ g +:+ "." +:+ String d1 (String d2 "")), [])
     /\ string_forall is_digit_or_comma g = true
     /\ contains_char comma g = true
     /\ is_digit d1 = true /\ is_digit d2 = true)
  /\ (forall (format : R -> string -> result string) (e : exn),
        format price ",.2f" = Raise e ->
        format price ".2f" = float_format price ".2f" ->
        exists n d1 d2,
          format_price_with format price
          = (Ok (rupee +:+ n +:+ "." +:+ String d1 (String d2 "")),
             [ERROR (MsgExn "Price formatting error: " e)])
          /\ string_forall is_digit n = true
          /\ is_digit d1 = true /\ is_digit d2 = true).
Proof.
  intros Hp. split.
  - destruct (fixed_2f_shape true price Hp) as (g & d1 & d2 & E & H1 & H2 & Hg & Hc).
    exists g, d1, d2. repeat split; try assumption.
    unfold format_price, format_price_with.
    destruct (Rlt_dec price 100) as [Hlt|_]; [lra|].
    cbn [float_format String.eqb Ascii.eqb Bool.eqb]. by rewrite E.
  - intros format e Hraise Hfallback.
    destruct (fixed_2f_shape false price Hp) as (n & d1 & d2 & E & H1 & H2 & Hn).
    exists n, d1, d2. repeat split; try assumption.
    unfold format_price_with.
    destruct (Rlt_dec price 100) as [Hlt|_]; [lra|].
    rewrite Hraise, Hfallback.
    cbn [float_format String.eqb Ascii.eqb Bool.eqb]. by rewrite E.
Qed.

Lemma format_price_display_witness :
  (exists g d1 d2,
     format_price 55578
     = (Ok (rupee +:+ g +:+ "." +:+ String d1 (String d2 "")), [])
     /\ contains_char comma g = true)
  /\ (exists n d1 d2,
        format_price_with
          (fun x spec =>
             if String.eqb spec ",.2f"
             then Raise (ValueError "Cannot specify ',' with 'f'.")
             else float_format x spec) 55578
        = (Ok (rupee +:+ n +:+ "." +:+ String d1 (String d2 "")),
           [ERROR (MsgExn "Price formatting error: "
                     (ValueError "Cannot specify ',' with 'f'."))])
        /\ string_forall is_digit n = true).
Proof.
  destruct (format_price_display 55578) as [Hcanonical Hfallback]; [lra|].
  split.
  - destruct Hcanonical as (g & d1 & d2 & E & _ & Hc & _).
    exists g, d1, d2. split; assumption.
  - destruct (Hfallback
                (fun x spec =>
                   if String.eqb spec ",.2f"
                   then Raise (ValueError "Cannot specify ',' with 'f'.")
                   else float_format x spec)
                (ValueError "Cannot specify ',' with 'f'."))
      as (n & d1 & d2 & E & Hn & _); [reflexivity|reflexivity|].
    exists n, d1, d2. split; assumption.
Defined.

Lemma round_half_even_IZR (n : Z) : round_half_even (IZR n) = n.
Proof.
  unfold round_half_even.
  assert (Hn : Int_part (IZR n) = n)
    by (symmetry; apply Int_part_spec; lra).
  rewrite Hn. destruct (Rlt_dec _ _) as [_|Hge]; [reflexivity|lra].
Qed.

(** The price of the schema's example response. *)
Example format_price_55578_05 :
  format_price (5557805 / 100) = (Ok "₹55,578.05", []).
Proof.
  unfold format_price, format_price_with.
  destruct (Rlt_dec _ 100) as [Hlt|_]; [lra|].
  cbn [float_format String.eqb Ascii.eqb Bool.eqb]. unfold fixed_2f.
  destruct (Rlt_dec _ 0) as [Hlt|_]; [lra|].
  replace (Rabs (5557805 / 100) * 100)%R with (IZR 5557805)
    by (rewrite Rabs_right by lra; lra).
  rewrite round_half_even_IZR. reflexivity.
Qed.

Example group_thousands_examples :
  group_thousands 0 = "0" /\ group_thousands 999 = "999"
  /\ group_thousands 10000 = "10,000" /\ group_thousands 500000 = "500,000"
  /\ group_thousands 1234567 = "1,234,567" /\ decimal 55578 = "55578".
Proof. repeat split. Qed.

End PriceFormatting.

Section Pipeline.
Implicit Types (env : Env) (w : World) (features : LaptopFeatures).

Lemma getattr_model features :
  getattr features "model" = Raise (AttributeError "LaptopFeatures" "model").
Proof.
  unfold getattr.
  assert (Hfield : model_dump features !! "model" = None) by reflexivity.
  rewrite Hfield. reflexivity.
Qed.

(** C3. [_create_cache_key] derives no key: for every validated record
    the call [features.model()] raises [AttributeError], since
    [LaptopFeatures] has no attribute of that name; the service's
    [predict_price] therefore raises it before it consults the cache,
    whatever the state of the process. *)
Theorem create_cache_key_raises env features :
  PredictionService._create_cache_key env features
  = Raise (AttributeError "LaptopFeatures" "model")
  /\ forall w,
       PredictionService.predict_price env features w
       = (Raise (AttributeError "LaptopFeatures" "model"), w).
Proof.
  assert (Hkey : PredictionService._create_cache_key env features
                 = Raise (AttributeError "LaptopFeatures" "model")).
  { unfold PredictionService._create_cache_key.
    by rewrite getattr_model. }
  split; [exact Hkey|].
  intros w.
  unfold PredictionService.predict_price,
    PredictionService.predict_price_with, bind at 1, lift.
  by rewrite Hkey.
Qed.

(** Hence every request to POST /predict is answered with status 500. *)
Lemma predict_price_always_fails env features w :
  Router.predict_price env features w
  = (Raise (HTTPException 500
             "Prediction failed: 'LaptopFeatures' object has no attribute 'model'"),
     w).
Proof. reflexivity. Qed.

(** C10. GET /predictions with a limit above 1000 raises an
    [HTTPException] of status 400 and leaves the process as it was, so the
    repository receives no call; with a limit of at most 1000 the route
    returns what the repository's history query returns for that limit
    (and no skip), and the repository has received exactly that call. *)
Theorem history_limit_bound env (limit : Z) w :
  ((limit > 1000)%Z ->
     Router.get_prediction_history env limit w
     = (Raise (HTTPException 400 "Limit cannot exceed 1000"), w))
  /\ ((limit <= 1000)%Z ->
       Router.get_prediction_history env limit w
       = (get_all_predictions env limit 0,
          with_db_calls (db_calls w ++ [GetAllPredictions limit 0]) w)).
Proof.
  unfold Router.get_prediction_history. split; intros H.
  - destruct (Z.gtb_spec limit 1000) as [_|?]; [reflexivity|lia].
  - destruct (Z.gtb_spec limit 1000) as [?|_]; [lia|reflexivity].
Qed.

Lemma history_limit_bound_witness :
  Router.status_code
    (fst (Router.get_prediction_history (sample_env true true) 1001
            (initial_world 0))) = 400%Z
  /\ db_calls (snd (Router.get_prediction_history (sample_env true true) 1000
                      (initial_world 0)))
     = [GetAllPredictions 1000 0].
Proof.
  split.
  - rewrite (proj1 (history_limit_bound (sample_env true true) 1001
                      (initial_world 0))) by lia.
    reflexivity.
  - rewrite (proj2 (history_limit_bound (sample_env true true) 1000
                      (initial_world 0))) by lia.
    reflexivity.
Defined.

(** What [_save_prediction_record] does, by the outcome of the write. *)
Lemma save_prediction_record_run env (fd : dict)
    (response : PredictionResponse.t) w :
  PredictionService._save_prediction_record env fd response w
  = let record := record_of env (clock w) fd response in
    let w1 := with_db_calls (db_calls w ++ [SavePrediction record]) w in
    (Ok tt,
     match save_prediction env record with
     | Ok _ =>
         with_log (log w1 ++ [INFO (Msg ("Prediction saved with ID: "
                     +:+ PredictionResponse.prediction_id response))]) w1
     | Raise e =>
         with_log (log w1 ++ [ERROR (MsgExn "Error saving prediction: " e)]) w1
     end).
Proof.
  unfold PredictionService._save_prediction_record, try_except, bind, gets,
    repository_save_prediction, logger, modify.
  fold (record_of env (clock w) fd response).
  destruct (save_prediction env _); reflexivity.
Qed.

Lemma run_task_cache env (t : Task) w :
  cache (run_task env t w) = cache w.
Proof.
  destruct t as [fd response]. unfold run_task.
  rewrite save_prediction_record_run. cbn [snd].
  destruct (save_prediction env _); reflexivity.
Qed.

Lemma run_tasks_cache env (ts : list Task) w :
  cache (fold_left (fun w' t => run_task env t w') ts w) = cache w.
Proof.
  revert w. induction ts as [|t ts IH]; intros w; [reflexivity|].
  cbn [fold_left]. rewrite IH. apply run_task_cache.
Qed.

Lemma run_pending_tasks_cache env w :
  cache (run_pending_tasks env w) = cache w.
Proof. unfold run_pending_tasks. by rewrite run_tasks_cache. Qed.

(** The handler of POST /predict does not consult the repository. *)
Lemma route_independent_of_save
    (kf : LaptopFeatures -> result string) env features w
    (save : PredictionRecord.t -> result string) :
  Router.predict_price_with
    (PredictionService.predict_price_with kf (with_save_prediction save env))
    features w
  = Router.predict_price_with
      (PredictionService.predict_price_with kf env) features w.
Proof. reflexivity. Qed.

(** C6. Whatever the repository does, the background save returns
    normally; when the write raises, it records the error in the log and
    changes nothing else of the process but the trace of the repository's
    calls.  The outcome of a request to POST /predict that the caller
    receives, and the cache the request leaves, are the same under any
    two behaviours of the repository's write, failing or not. *)
Theorem persistence_failure_is_swallowed env (fd : dict)
    (response : PredictionResponse.t) w :
  fst (PredictionService._save_prediction_record env fd response w) = Ok tt
  /\ (forall e,
        save_prediction env (record_of env (clock w) fd response) = Raise e ->
        PredictionService._save_prediction_record env fd response w
        = (Ok tt,
           with_log (log w ++ [ERROR (MsgExn "Error saving prediction: " e)])
             (with_db_calls
                (db_calls w
                 ++ [SavePrediction (record_of env (clock w) fd response)])
                w)))
  /\ (forall (kf : LaptopFeatures -> result string) features
             (save : PredictionRecord.t -> result string),
        fst (serve_predict_with kf (with_save_prediction save env) features w)
        = fst (serve_predict_with kf env features w)
        /\ cache (snd (serve_predict_with kf
                         (with_save_prediction save env) features w))
           = cache (snd (serve_predict_with kf env features w))).
Proof.
  rewrite save_prediction_record_run. split; [reflexivity|]. split.
  - intros e He. cbn zeta. rewrite He. reflexivity.
  - intros kf features save. unfold serve_predict_with.
    rewrite route_independent_of_save.
    destruct (Router.predict_price_with _ features w) as [r w'].
    cbn [fst snd]. split; [reflexivity|].
    by rewrite !run_pending_tasks_cache.
Qed.

Lemma persistence_failure_is_swallowed_witness :
  PredictionService._save_prediction_record (sample_env true false)
    (model_dump example_features) sample_response (initial_world 0)
  = (Ok tt,
     with_log [ERROR (MsgExn "Error saving prediction: "
                        (OtherError "ServerSelectionTimeoutError"))]
       (with_db_calls
          [SavePrediction (record_of (sample_env true false) 0
                             (model_dump example_features) sample_response)]
          (initial_world 0))).
Proof.
  apply (persistence_failure_is_swallowed (sample_env true false)
           (model_dump example_features) sample_response (initial_world 0)).
  reflexivity.
Defined.

(** A load attempted while a file is missing: the two paths are logged,
    the error is logged and raised again, nothing is unpickled. *)
Lemma load_model_missing_file env w (e : exn) :
  is_loaded w = false ->
  missing_file env = Some e ->
  LaptopPriceModel.load_model env w
  = (Raise e,
     with_log
       (log w ++ [INFO (Msg ("Loading model from: "
                              +:+ settings_model_path env));
                  INFO (Msg ("Loading data from: "
                              +:+ settings_data_path env));
                  ERROR (MsgExn "Error loading model: " e)]) w).
Proof.
  intros Hl Hm. unfold missing_file in Hm.
  unfold LaptopPriceModel.load_model, bind, gets. rewrite Hl. cbn [negb].
  unfold try_except, bind, logger, modify, raise, ret.
  destruct (negb (path_exists env (settings_model_path env))).
  - injection Hm as <-. unfold with_log; cbn.
    by rewrite <- !app_assoc.
  - destruct (negb (path_exists env (settings_data_path env)));
      [|discriminate].
    injection Hm as <-. unfold with_log; cbn.
    by rewrite <- !app_assoc.
Qed.

Lemma predict_missing_file env w (e : exn) (fd : dict) :
  is_loaded w = false ->
  missing_file env = Some e ->
  fst (LaptopPriceModel.predict env fd w) = Raise e.
Proof.
  intros Hl Hm. unfold LaptopPriceModel.predict, bind at 1, gets.
  rewrite Hl. cbn [negb]. unfold bind at 1.
  by rewrite (load_model_missing_file env w e Hl Hm).
Qed.

Lemma service_missing_file (kf : LaptopFeatures -> result string)
    env features w (key : string) (e : exn) :
  is_loaded w = false ->
  missing_file env = Some e ->
  kf features = Ok key ->
  fst (SimpleCache.get (clock w) key (cache w)) = None ->
  fst (PredictionService.predict_price_with kf env features w) = Raise e.
Proof.
  intros Hl Hm Hk Hmiss.
  unfold PredictionService.predict_price_with, bind at 1, lift.
  rewrite Hk. unfold bind at 1, cache_get.
  destruct (SimpleCache.get (clock w) key (cache w)) as [v c].
  cbn [fst] in Hmiss. subst v.
  unfold bind at 1, logger, modify. unfold bind at 1.
  match goal with
  | |- context [LaptopPriceModel.predict env ?fd ?w1] =>
      pose proof (predict_missing_file env w1 e fd Hl Hm) as Hp;
      destruct (LaptopPriceModel.predict env fd w1) as [r w2]
  end.
  cbn [fst] in Hp. by subst r.
Qed.

(** C7. With the model not yet loaded and the model file or the data file
    absent from its configured path, [load_model] raises a
    [FileNotFoundError] after one attempt that unpickles nothing and
    leaves the model unloaded; [predict] raises the same error; a request
    whose cache key is derived and misses the cache raises it from the
    service and is answered by the route with an [HTTPException] of status
    500 carrying the error's text; and the request as the service has it
    is answered with status 500 and no prediction. *)
Theorem missing_file_fails_the_request env w features :
  is_loaded w = false ->
  path_exists env (settings_model_path env) = false
  \/ path_exists env (settings_data_path env) = false ->
  exists msg path,
    LaptopPriceModel.load_model env w
    = (Raise (FileNotFoundError msg path),
       with_log
         (log w ++ [INFO (Msg ("Loading model from: "
                                +:+ settings_model_path env));
                    INFO (Msg ("Loading data from: "
                                +:+ settings_data_path env));
                    ERROR (MsgExn "Error loading model: "
                             (FileNotFoundError msg path))]) w)
    /\ (forall fd : dict,
          fst (LaptopPriceModel.predict env fd w)
          = Raise (FileNotFoundError msg path))
    /\ (forall (kf : LaptopFeatures -> result string) (key : string),
          kf features = Ok key ->
          fst (SimpleCache.get (clock w) key (cache w)) = None ->
          fst (PredictionService.predict_price_with kf env features w)
          = Raise (FileNotFoundError msg path)
          /\ fst (Router.predict_price_with
                    (PredictionService.predict_price_with kf env) features w)
             = Raise (HTTPException 500
                        ("Prediction failed: " +:+ msg +:+ path)))
    /\ Router.status_code (fst (Router.predict_price env features w)) = 500%Z
    /\ is_ok (fst (Router.predict_price env features w)) = false.
Proof.
  intros Hl Hmissing.
  assert (Hm : exists msg path,
             missing_file env = Some (FileNotFoundError msg path)).
  { unfold missing_file.
    destruct (path_exists env (settings_model_path env)); cbn [negb].
    - destruct Hmissing as [Hx | Hx]; [discriminate|]. rewrite Hx. cbn [negb]. eauto.
    - eauto. }
  destruct Hm as (msg & path & Hm). exists msg, path.
  split; [by apply load_model_missing_file|].
  split; [intros fd; by apply predict_missing_file|].
  split; [|by rewrite predict_price_always_fails].
  intros kf key Hk Hmiss.
  pose proof (service_missing_file kf env features w key _ Hl Hm Hk Hmiss) as Hs.
  split; [exact Hs|].
  unfold Router.predict_price_with, try_except.
  destruct (PredictionService.predict_price_with kf env features w) as [r w'].
  cbn [fst] in Hs. subst r. reflexivity.
Qed.

Lemma missing_file_fails_the_request_witness :
  exists msg path,
    fst (LaptopPriceModel.load_model (sample_env false true) (initial_world 0))
    = Raise (FileNotFoundError msg path)
    /\ fst (Router.predict_price_with
              (PredictionService.predict_price_with
                 (fun _ => Ok "prediction:42") (sample_env false true))
              example_features (initial_world 0))
       = Raise (HTTPException 500 ("Prediction failed: " +:+ msg +:+ path)).
Proof.
  destruct (missing_file_fails_the_request (sample_env false true)
              (initial_world 0) example_features)
    as (msg & path & Hload & _ & Hserve & _).
  - reflexivity.
  - left. reflexivity.
  - exists msg, path. split.
    + by rewrite Hload.
    + apply (Hserve (fun _ => Ok "prediction:42") "prediction:42");
        reflexivity.
Defined.

(** A request whose key is derived and found fresh in the cache is
    answered from the cache, with the model files absent. *)
Example cached_prediction_is_returned :
  fst (serve_predict_with (fun _ => Ok "prediction:42")
         (sample_env false true) example_features
         (with_cache (SimpleCache.set 0 "prediction:42" sample_response
                        (SimpleCache.init SimpleCache.default_ttl))
            (initial_world 299)))
  = Ok sample_response.
Proof. reflexivity. Qed.

Example example_body_is_valid :
  model_validate example_body = inr example_features.
Proof. reflexivity. Qed.

End Pipeline.

(* ================================================================== *)
(** * Further properties of the result cache                           *)
(* ================================================================== *)

Section ResultCacheLaws.
Context {V : Type}.
Local Open Scope Q_scope.
Implicit Types (c : SimpleCache.t V) (k : string) (v : V).

Lemma cache_set_get_ttl_aux c k v (t_set t_get : Q) :
  (t_get - t_set < SimpleCache._ttl c ->
     SimpleCache.get t_get k (SimpleCache.set t_set k v c)
     = (Some v, SimpleCache.set t_set k v c))
  /\ (SimpleCache._ttl c <= t_get - t_set ->
       fst (SimpleCache.get t_get k (SimpleCache.set t_set k v c)) = None).
Proof.
  rewrite get_after_set. split; intros H; destruct (Qlt_le_dec _ _) as [H'|H'];
    try reflexivity; exfalso; exact (Qlt_not_le _ _ ltac:(eassumption) ltac:(eassumption)).
Qed.

(** After [clear()] every [get] misses, whatever the key and the time,
    and leaves the cache empty; the TTL is kept. *)
Theorem cache_clear_then_get_misses c k (now : Q) :
  SimpleCache.get now k (SimpleCache.clear c) = (None, SimpleCache.clear c)
  /\ SimpleCache._ttl (SimpleCache.clear c) = SimpleCache._ttl c
  /\ SimpleCache._cache (SimpleCache.clear c) = ∅.
Proof.
  unfold SimpleCache.get, SimpleCache.clear; cbn.
  by rewrite lookup_empty.
Qed.

(** A second [set] on a key replaces the first altogether, value and
    timestamp: the cache is the one the second [set] alone would give. *)
Theorem cache_set_overwrites c k (v1 v2 : V) (t1 t2 : Q) :
  SimpleCache.set t2 k v2 (SimpleCache.set t1 k v1 c)
  = SimpleCache.set t2 k v2 c.
Proof.
  unfold SimpleCache.set; cbn. by rewrite insert_insert_eq.
Qed.

(** What a [get] leaves behind: the cache it was given, without the entry
    of the key when that entry had expired. *)
Lemma get_cache_after c k (now : Q) :
  SimpleCache._ttl (snd (SimpleCache.get now k c)) = SimpleCache._ttl c
  /\ (SimpleCache._cache (snd (SimpleCache.get now k c)) = SimpleCache._cache c
      \/ (fst (SimpleCache.get now k c) = None
          /\ SimpleCache._cache (snd (SimpleCache.get now k c))
             = delete k (SimpleCache._cache c))).
Proof.
  unfold SimpleCache.get.
  destruct (SimpleCache._cache c !! k) as [[value timestamp]|];
    [|by split; [|left]].
  destruct (Qlt_le_dec _ _); cbn; [by split; [|left]|by split; [|right]].
Qed.

(** Keys do not interfere: a [set] on [k] does not change what a [get] on
    another key returns, and a [get] on another key does not touch the
    entry of [k]. *)
Theorem cache_keys_independent c (k k' : string) v (t now : Q) :
  k <> k' ->
  fst (SimpleCache.get now k' (SimpleCache.set t k v c))
  = fst (SimpleCache.get now k' c)
  /\ SimpleCache._cache (snd (SimpleCache.get now k' c)) !! k
     = SimpleCache._cache c !! k.
Proof.
  intros Hne. split.
  - unfold SimpleCache.get, SimpleCache.set; cbn.
    rewrite lookup_insert_ne by done.
    destruct (SimpleCache._cache c !! k') as [[value timestamp]|];
      [|reflexivity].
    by destruct (Qlt_le_dec _ _).
  - destruct (get_cache_after c k' now) as [_ [->|[_ ->]]]; [done|].
    by rewrite lookup_delete_ne.
Qed.

(** The age of an entry is counted from its insertion, not from its last
    access: a hit leaves the cache as it is, so a later [get] at or past
    the TTL of the insertion misses however recent the hit was. *)
Theorem cache_hit_does_not_refresh c k v (t_set t_hit t_late : Q) :
  t_hit - t_set < SimpleCache._ttl c ->
  SimpleCache._ttl c <= t_late - t_set ->
  let c1 := SimpleCache.set t_set k v c in
  SimpleCache.get t_hit k c1 = (Some v, c1)
  /\ fst (SimpleCache.get t_late k (snd (SimpleCache.get t_hit k c1))) = None.
Proof.
  intros Hhit Hlate c1.
  destruct (cache_set_get_ttl_aux c k v t_set t_hit) as [Hget _].
  destruct (cache_set_get_ttl_aux c k v t_set t_late) as [_ Hmiss].
  subst c1. rewrite (Hget Hhit). cbn [snd]. split; [done|].
  by apply Hmiss.
Qed.

(** A [get] never adds or alters an entry: what the cache holds after it,
    it held before, and only the key looked up can have lost its entry. *)
Theorem cache_get_only_evicts c (k k' : string) (now : Q) (entry : V * Q) :
  (SimpleCache._cache (snd (SimpleCache.get now k c)) !! k' = Some entry ->
   SimpleCache._cache c !! k' = Some entry)
  /\ (k' <> k ->
      SimpleCache._cache (snd (SimpleCache.get now k c)) !! k'
      = SimpleCache._cache c !! k').
Proof.
  destruct (get_cache_after c k now) as [_ [->|[_ ->]]]; [done|].
  split.
  - rewrite lookup_delete_Some. tauto.
  - intros Hne. by rewrite lookup_delete_ne.
Qed.

End ResultCacheLaws.

Lemma cache_keys_independent_witness :
  fst (SimpleCache.get 10 "prediction:2"
         (SimpleCache.set 5 "prediction:1" 7%Z
            (SimpleCache.set 0 "prediction:2" 9%Z (SimpleCache.init 300))))
  = Some 9%Z.
Proof.
  rewrite (proj1 (cache_keys_independent
                    (SimpleCache.set 0 "prediction:2" 9%Z (SimpleCache.init 300))
                    "prediction:1" "prediction:2" 7%Z 5 10 ltac:(discriminate))).
  reflexivity.
Defined.

Lemma cache_hit_does_not_refresh_witness :
  fst (SimpleCache.get 300 "prediction:1"
         (snd (SimpleCache.get 299 "prediction:1"
                 (SimpleCache.set 0 "prediction:1" 7%Z (SimpleCache.init 300)))))
  = None.
Proof.
  apply (cache_hit_does_not_refresh (SimpleCache.init 300) "prediction:1"
           7%Z 0 299 300); [reflexivity|discriminate].
Defined.

Lemma cache_get_only_evicts_witness :
  SimpleCache._cache
    (snd (SimpleCache.get 400 "prediction:1"
            (SimpleCache.set 0 "prediction:1" 7%Z
               (SimpleCache.set 0 "prediction:2" 9%Z (SimpleCache.init 300)))))
  !! "prediction:2"
  = Some (9%Z, 0%Q).
Proof.
  rewrite (proj2 (cache_get_only_evicts
                    (SimpleCache.set 0 "prediction:1" 7%Z
                       (SimpleCache.set 0 "prediction:2" 9%Z
                          (SimpleCache.init 300)))
                    "prediction:1" "prediction:2" 400 (9%Z, 0%Q)))
    by discriminate.
  reflexivity.
Defined.

(* ================================================================== *)
(** * Further properties of the price normaliser                       *)
(* ================================================================== *)

Section PriceNormalizerLaws.
Local Open Scope R_scope.

Lemma process_prediction_band (raw : R) :
  1000 <= _process_prediction raw <= 500000.
Proof. unfold _process_prediction. apply py_clamp_bounds. lra. Qed.

Lemma apply_price_correction_band (p : R) :
  10000 <= fst (_apply_price_correction p) <= 500000.
Proof. rewrite apply_price_correction_value. apply py_clamp_bounds. lra. Qed.

Lemma py_clamp_id (lo hi x : R) :
  lo <= x <= hi -> py_max lo (py_min x hi) = x.
Proof.
  intros H. unfold py_max, py_min.
  destruct (Rlt_dec hi x); [lra|]. destruct (Rgt_dec x lo); lra.
Qed.

Lemma process_prediction_id (p : R) :
  1000 <= p <= 500000 -> _process_prediction p = p.
Proof.
  intros H. unfold _process_prediction.
  destruct (Rlt_dec p 100); [lra|]. destruct (Rlt_dec p 1000); [lra|].
  by apply py_clamp_id.
Qed.

Lemma apply_price_correction_id (p : R) :
  10000 <= p <= 500000 -> _apply_price_correction p = (p, []).
Proof.
  intros H. unfold _apply_price_correction.
  destruct (Rlt_dec p 100); [lra|]. destruct (Rlt_dec p 10000); [lra|].
  rewrite py_clamp_id by lra.
  destruct (Req_dec_T p p); [reflexivity|lra].
Qed.

(** Each layer leaves a price unchanged exactly when the price is already
    in the layer's band, and the service layer logs a correction exactly
    when it changes the price. *)
Theorem correction_fixed_points (p : R) :
  (_process_prediction p = p <-> 1000 <= p <= 500000)
  /\ (fst (_apply_price_correction p) = p <-> 10000 <= p <= 500000)
  /\ (snd (_apply_price_correction p) = [] <-> 10000 <= p <= 500000).
Proof.
  split; [|split].
  - split; [|apply process_prediction_id].
    intros <-. apply process_prediction_band.
  - split; [|by intros H; rewrite apply_price_correction_id].
    intros <-. apply apply_price_correction_band.
  - split; [|by intros H; rewrite apply_price_correction_id].
    unfold _apply_price_correction.
    destruct (Rlt_dec p 100); [by destruct (Rlt_dec (exp p) 10000)|].
    destruct (Rlt_dec p 10000); [discriminate|].
    destruct (Req_dec_T p _) as [E|]; [|discriminate].
    intros _. rewrite E. apply py_clamp_bounds. lra.
Qed.

(** Each layer is idempotent: normalising a normalised price changes
    nothing, and logs nothing. *)
Theorem corrections_idempotent (raw : R) :
  _process_prediction (_process_prediction raw) = _process_prediction raw
  /\ _apply_price_correction (fst (_apply_price_correction raw))
     = (fst (_apply_price_correction raw), []).
Proof.
  split.
  - apply process_prediction_id, process_prediction_band.
  - apply apply_price_correction_id, apply_price_correction_band.
Qed.

(** The two layers in sequence, as the pipeline applies them.  A
    model-layer price below 10000 is multiplied by 100 once more by the
    service layer and capped, so that it comes out at 100000 or more; a
    model-layer price of at least 10000 is kept. *)
Theorem service_after_model_layer (raw : R) :
  let v := _process_prediction raw in
  (v < 10000 ->
     fst (_apply_price_correction v) = Rmin (v * 100) 500000
     /\ 100000 <= fst (_apply_price_correction v))
  /\ (10000 <= v -> _apply_price_correction v = (v, [])).
Proof.
  intros v. pose proof (process_prediction_band raw) as Hv. fold v in Hv.
  split.
  - intros Hlt. rewrite apply_price_correction_value.
    unfold spec_exponentiate, spec_scale.
    destruct (Rlt_dec v 100); [lra|]. destruct (Rlt_dec v 10000); [|lra].
    unfold py_max, py_min, Rmin.
    destruct (Rlt_dec 500000 (v * 100)).
    + destruct (Rgt_dec 500000 10000); [|lra].
      destruct (Rle_dec (v * 100) 500000); lra.
    + destruct (Rgt_dec (v * 100) 10000); [|lra].
      destruct (Rle_dec (v * 100) 500000); lra.
  - intros Hge. apply apply_price_correction_id. lra.
Qed.

Lemma service_after_model_layer_witness :
  fst (_apply_price_correction (_process_prediction 2000)) = 200000
  /\ _apply_price_correction (_process_prediction 20000) = (20000, []).
Proof.
  assert (E1 : _process_prediction 2000 = 2000)
    by (apply process_prediction_id; lra).
  assert (E2 : _process_prediction 20000 = 20000)
    by (apply process_prediction_id; lra).
  destruct (service_after_model_layer 2000) as [Hlow _].
  destruct (service_after_model_layer 20000) as [_ Hhigh].
  cbv zeta in Hlow, Hhigh. split.
  - destruct Hlow as [-> _]; [rewrite E1; lra|].
    rewrite E1. unfold Rmin. destruct (Rle_dec _ _); lra.
  - rewrite Hhigh at 1; rewrite E2; [reflexivity|lra].
Defined.

(** A regressor output in log scale whose exponential is a price of the
    model layer's band is turned into that exponential; when the
    exponential is at least 10000 the service layer keeps it, so it is
    the price of the response. *)
Theorem log_scale_output_is_exponentiated (raw : R) :
  raw < 100 ->
  1000 <= exp raw <= 500000 ->
  _process_prediction raw = exp raw
  /\ (10000 <= exp raw ->
      _apply_price_correction (_process_prediction raw) = (exp raw, [])).
Proof.
  intros Hraw Hexp.
  assert (E : _process_prediction raw = exp raw).
  { unfold _process_prediction.
    destruct (Rlt_dec raw 100); [|lra].
    destruct (Rlt_dec (exp raw) 1000); [lra|].
    by apply py_clamp_id. }
  split; [exact E|].
  intros Hge. rewrite E. apply apply_price_correction_id. lra.
Qed.

Lemma exp_1_lower : 12 / 5 < exp 1.
Proof.
  replace 1 with (1 / 4 + 1 / 4 + (1 / 4 + 1 / 4)) at 1 by lra.
  rewrite !exp_plus.
  pose proof (exp_ineq1 (1 / 4) ltac:(lra)) as H.
  assert (H2 : 25 / 16 < exp (1 / 4) * exp (1 / 4)) by nra.
  nra.
Qed.

Lemma exp_nat_bounds (n : nat) : (12 / 5) ^ n <= exp (INR n) <= 3 ^ n.
Proof.
  induction n as [|n IH].
  - cbn. rewrite exp_0. lra.
  - rewrite S_INR, exp_plus. cbn [pow].
    pose proof exp_le_3 as H3.
    pose proof exp_1_lower as H2.
    pose proof (exp_pos (INR n)) as Hp.
    assert (0 < (12 / 5) ^ n) by (apply pow_lt; lra).
    split; nra.
Qed.

Lemma log_scale_output_is_exponentiated_witness :
  _apply_price_correction (_process_prediction 11) = (exp 11, []).
Proof.
  pose proof (exp_nat_bounds 11) as Hb.
  replace (INR 11) with 11 in Hb by (cbn; lra).
  cbn [pow] in Hb.
  apply (log_scale_output_is_exponentiated 11); lra.
Defined.

End PriceNormalizerLaws.

(* ================================================================== *)
(** * Further properties of price formatting                           *)
(* ================================================================== *)

Section PriceFormattingLaws.

Lemma string_append_assoc (s1 s2 s3 : string) :
  s1 +:+ (s2 +:+ s3) = (s1 +:+ s2) +:+ s3.
Proof.
  induction s1 as [|c s1 IH]; [reflexivity|].
  change (String c (s1 +:+ (s2 +:+ s3)) = String c ((s1 +:+ s2) +:+ s3)).
  by rewrite IH.
Qed.

Lemma string_filter_app (p : ascii -> bool) (s1 s2 : string) :
  string_filter p (s1 +:+ s2) = string_filter p s1 +:+ string_filter p s2.
Proof.
  induction s1 as [|c s1 IH]; simpl; [reflexivity|].
  rewrite IH. by destruct (p c).
Qed.

Lemma string_filter_all (p q : ascii -> bool) (s : string) :
  (forall c, q c = true -> p c = true) ->
  string_forall q s = true -> string_filter p s = s.
Proof.
  intros Hqp. induction s as [|c s IH]; simpl; [done|].
  rewrite andb_true_iff. intros [Hc Hs]. by rewrite (Hqp c Hc), IH.
Qed.

Lemma is_digit_not_comma (c : ascii) :
  is_digit c = true -> negb (Ascii.eqb c comma) = true.
Proof.
  intros H. destruct (Ascii.eqb_spec c comma) as [->|]; [discriminate|done].
Qed.

Lemma digits_have_no_comma (s : string) :
  string_forall is_digit s = true -> contains_char comma s = false.
Proof.
  induction s as [|c s IH]; cbn [string_forall contains_char]; [done|].
  rewrite andb_true_iff. intros [Hc Hs]. rewrite (IH Hs), orb_false_r.
  destruct (Ascii.eqb_spec comma c) as [<-|]; [discriminate|done].
Qed.

(** Fuel beyond the number of digits changes nothing. *)
Lemma decimal_fuel_enough (fuel : nat) (n : Z) :
  (0 <= n < 2 ^ Z.of_nat (S fuel))%Z ->
  decimal_fuel (S fuel) n = decimal n.
Proof.
  unfold decimal.
  generalize (Z.to_nat (Z.log2 n)) (log2_fuel_bound n).
  intros fuel' Hb Hn. specialize (Hb (proj1 Hn)). revert fuel' n Hb Hn.
  induction fuel as [|fuel IH]; intros fuel' n Hb Hn;
    rewrite !decimal_fuel_S; destruct (Z.ltb_spec n 10) as [|Hge];
    try reflexivity.
  - exfalso. change (2 ^ Z.of_nat 1)%Z with 2%Z in Hn. lia.
  - destruct fuel' as [|fuel'].
    { exfalso. change (2 ^ Z.of_nat 1)%Z with 2%Z in Hb. lia. }
    f_equal. apply IH.
    + split; [apply Z.div_pos; lia|]. apply Z.div_lt_upper_bound; [lia|].
      rewrite (Nat2Z.inj_succ (S fuel')), Z.pow_succ_r in Hb by lia. lia.
    + split; [apply Z.div_pos; lia|]. apply Z.div_lt_upper_bound; [lia|].
      rewrite (Nat2Z.inj_succ (S fuel)), Z.pow_succ_r in Hn by lia. lia.
Qed.

Lemma decimal_small (n : Z) :
  (0 <= n < 10)%Z -> decimal n = String (digit n) "".
Proof.
  intros Hn. unfold decimal. rewrite decimal_fuel_S.
  destruct (Z.ltb_spec n 10); [reflexivity|lia].
Qed.

Lemma decimal_step (n : Z) :
  (10 <= n)%Z -> decimal n = decimal (n / 10) +:+ String (digit (n mod 10)) "".
Proof.
  intros Hn. unfold decimal at 1. rewrite decimal_fuel_S.
  destruct (Z.ltb_spec n 10); [lia|]. f_equal.
  pose proof (log2_fuel_bound n ltac:(lia)) as Hb.
  destruct (Z.to_nat (Z.log2 n)) as [|fuel].
  { exfalso. change (2 ^ Z.of_nat 1)%Z with 2%Z in Hb. lia. }
  apply decimal_fuel_enough.
  split; [apply Z.div_pos; lia|]. apply Z.div_lt_upper_bound; [lia|].
  rewrite (Nat2Z.inj_succ (S fuel)), Z.pow_succ_r in Hb by lia. lia.
Qed.

(** The last three digits of a numeral of a number from 1000 on. *)
Lemma decimal_thousands (n : Z) :
  (1000 <= n)%Z -> decimal n = decimal (n / 1000) +:+ pad3 (n mod 1000).
Proof.
  intros Hn.
  rewrite (decimal_step n) by lia.
  rewrite (decimal_step (n / 10)) by (Z.div_mod_to_equations; lia).
  rewrite (decimal_step (n / 10 / 10)) by (Z.div_mod_to_equations; lia).
  unfold pad3, pad2.
  replace (n / 10 / 10 / 10)%Z with (n / 1000)%Z
    by (Z.div_mod_to_equations; lia).
  replace ((n mod 1000) / 100)%Z with ((n / 10 / 10) mod 10)%Z
    by (Z.div_mod_to_equations; lia).
  replace (((n mod 1000) mod 100) / 10)%Z with ((n / 10) mod 10)%Z
    by (Z.div_mod_to_equations; lia).
  replace (((n mod 1000) mod 100) mod 10)%Z with (n mod 10)%Z
    by (Z.div_mod_to_equations; lia).
  rewrite <- !string_append_assoc. reflexivity.
Qed.

Lemma group_thousands_fuel_S (fuel : nat) (n : Z) :
  group_thousands_fuel (S fuel) n
  = if (n <? 1000)%Z then decimal n
    else group_thousands_fuel fuel (n / 1000) +:+ ","
         +:+ pad3 (n mod 1000).
Proof. reflexivity. Qed.

Lemma remove_commas_digits (s : string) :
  string_forall is_digit s = true -> remove_commas s = s.
Proof. apply string_filter_all, is_digit_not_comma. Qed.

Lemma remove_commas_app (s1 s2 : string) :
  remove_commas (s1 +:+ s2) = remove_commas s1 +:+ remove_commas s2.
Proof. apply string_filter_app. Qed.

Lemma group_thousands_fuel_commas (fuel : nat) (n : Z) :
  (0 <= n < 2 ^ Z.of_nat (S fuel))%Z ->
  remove_commas (group_thousands_fuel (S fuel) n) = decimal n.
Proof.
  revert n. induction fuel as [|fuel IH]; intros n Hn;
    rewrite group_thousands_fuel_S; destruct (Z.ltb_spec n 1000) as [|Hge].
  - apply remove_commas_digits, decimal_digits. lia.
  - exfalso. change (2 ^ Z.of_nat 1)%Z with 2%Z in Hn. lia.
  - apply remove_commas_digits, decimal_digits. lia.
  - rewrite !remove_commas_app, IH.
    + rewrite (remove_commas_digits (pad3 _))
        by (apply pad3_digits; pose proof (Z.mod_pos_bound n 1000); lia).
      change (remove_commas ",") with "".
      by rewrite (decimal_thousands n).
    + split; [apply Z.div_pos; lia|]. apply Z.div_lt_upper_bound; [lia|].
      rewrite (Nat2Z.inj_succ (S fuel)), Z.pow_succ_r in Hn by lia. lia.
Qed.

Lemma grouping_inserts_only_commas_aux (n : Z) :
  (0 <= n)%Z ->
  remove_commas (group_thousands n) = decimal n
  /\ contains_char comma (group_thousands n) = (1000 <=? n)%Z.
Proof.
  intros Hn. split.
  - apply group_thousands_fuel_commas, log2_fuel_bound, Hn.
  - destruct (Z.leb_spec 1000 n) as [Hge|Hlt].
    + by apply group_thousands_has_comma.
    + unfold group_thousands. cbn [group_thousands_fuel].
      destruct (Z.ltb_spec n 1000); [|lia].
      apply digits_have_no_comma, decimal_digits, Hn.
Qed.

(** Grouping only inserts commas: without them the grouped numeral is the
    plain decimal numeral, and a comma is there exactly from 1000 on. *)
Theorem grouping_inserts_only_commas (n : Z) :
  (0 <= n)%Z ->
  remove_commas (group_thousands n) = decimal n
  /\ contains_char comma (group_thousands n) = (1000 <=? n)%Z
  /\ digits_value (remove_commas (group_thousands n)) = n.
Proof.
  intros Hn. destruct (grouping_inserts_only_commas_aux n Hn) as [E Hc].
  split; [exact E|]. split; [exact Hc|].
  rewrite E. by apply decimal_digits.
Qed.

Lemma grouping_inserts_only_commas_witness :
  remove_commas (group_thousands 1234567) = "1234567"
  /\ contains_char comma (group_thousands 999) = false.
Proof.
  destruct (grouping_inserts_only_commas 1234567) as (H1 & _ & _); [lia|].
  destruct (grouping_inserts_only_commas 999) as (_ & H2 & _); [lia|].
  split; [rewrite H1|rewrite H2]; reflexivity.
Defined.

Lemma string_append_empty_l (s : string) : "" +:+ s = s.
Proof. reflexivity. Qed.

Lemma keep_digits_app (s1 s2 : string) :
  keep_digits (s1 +:+ s2) = keep_digits s1 +:+ keep_digits s2.
Proof. apply string_filter_app. Qed.

Lemma keep_digits_digits (s : string) :
  string_forall is_digit s = true -> keep_digits s = s.
Proof. by apply string_filter_all. Qed.

Lemma keep_digits_grouped (s : string) :
  string_forall is_digit_or_comma s = true ->
  keep_digits s = remove_commas s.
Proof.
  unfold keep_digits, remove_commas.
  induction s as [|c s IH]; cbn [string_forall string_filter]; [done|].
  rewrite andb_true_iff. intros [Hc Hs]. rewrite (IH Hs).
  unfold is_digit_or_comma in Hc.
  destruct (is_digit c) eqn:Hd.
  - by rewrite (is_digit_not_comma c Hd).
  - cbn in Hc. by rewrite Hc.
Qed.

Lemma round_half_even_nonneg (y : R) :
  (0 <= y)%R -> (0 <= round_half_even y)%Z.
Proof. intros Hy. by apply round_half_even_lower. Qed.

Lemma digits_value_cents (q r : Z) :
  (0 <= q)%Z -> (0 <= r < 100)%Z ->
  digits_value (decimal q +:+ pad2 r) = (100 * q + r)%Z.
Proof.
  intros Hq Hr. unfold digits_value.
  rewrite digits_value_from_app.
  destruct (decimal_digits q Hq) as [_ Hv]. unfold digits_value in Hv.
  rewrite Hv. unfold pad2. cbn [digits_value_from].
  rewrite !digit_value by (Z.div_mod_to_equations; lia).
  Z.div_mod_to_equations; lia.
Qed.


End PriceFormattingLaws.

(* ================================================================== *)
(** * Further properties of the feature schema                         *)
(* ================================================================== *)

Section FeatureSchemaLaws.

Lemma enum_validator_inr {E} (value : E -> string) (members : list E)
    (s : string) (e : E) :
  enum_validator value members s = inr e -> value e = s.
Proof.
  unfold enum_validator.
  destruct (List.find _ members) as [e'|] eqn:Hf; [|discriminate].
  intros [= <-]. apply find_some in Hf. destruct Hf as [_ Heq].
  by apply String.eqb_eq in Heq.
Qed.

Lemma enum_validator_inl {E} (value : E -> string) (members : list E)
    (s : string) (err : ErrorType) :
  enum_validator value members s = inl err -> err = enum.
Proof.
  unfold enum_validator. destruct (List.find _ members); [discriminate|].
  by intros [= <-].
Qed.

(** An enumerated field accepts a string exactly when it is the value of
    a member, and then returns that member; any other string is rejected
    with the [enum] error. *)
Theorem enum_fields_accept_their_values (s : string) :
  (forall c, company_field (Some s) = inr c <-> Company.value c = s)
  /\ (forall t, type_name_field (Some s) = inr t <-> TypeName.value t = s)
  /\ (forall c, cpu_brand_field (Some s) = inr c <-> CpuBrand.value c = s)
  /\ (forall g, gpu_brand_field (Some s) = inr g <-> GpuBrand.value g = s)
  /\ (forall o, os_field (Some s) = inr o <-> OS.value o = s)
  /\ (forall err,
        company_field (Some s) = inl err \/ type_name_field (Some s) = inl err
        \/ cpu_brand_field (Some s) = inl err
        \/ gpu_brand_field (Some s) = inl err \/ os_field (Some s) = inl err ->
        err = enum).
Proof.
  repeat match goal with |- _ /\ _ => split end.
  1-5: intros e; (split; [apply enum_validator_inr|]);
       intros <-; by destruct e.
  intros err [H|[H|[H|[H|H]]]]; by apply enum_validator_inl in H.
Qed.

Lemma int_validator_spec (lo hi v v' : Z) :
  int_validator lo hi v = inr v' <-> v' = v /\ (lo <= v <= hi)%Z.
Proof.
  unfold int_validator.
  destruct (Z.ltb_spec v lo); [split; [discriminate|lia]|].
  destruct (Z.ltb_spec hi v); [split; [discriminate|lia]|].
  split; [intros [= <-]; lia|intros [-> _]; reflexivity].
Qed.

Lemma float_validator_spec (lo hi v v' : Q) :
  float_validator lo hi v = inr v' <-> v' = v /\ (lo <= v <= hi)%Q.
Proof.
  unfold float_validator.
  destruct (Qlt_le_dec v lo) as [Hlt|Hge].
  { split; [discriminate|]. intros [_ [Hle _]]. exfalso.
    exact (Qlt_not_le _ _ Hlt Hle). }
  destruct (Qlt_le_dec hi v) as [Hlt|Hle].
  { split; [discriminate|]. intros [_ [_ Hle]]. exfalso.
    exact (Qlt_not_le _ _ Hlt Hle). }
  split; [by intros [= <-]|by intros [-> _]].
Qed.

(** The numeric constraints include their bounds and return the value
    unchanged: weight in [0.5, 5], pixel density in [90, 400], the two
    flags in [0, 1], HDD size in [0, 2000], SSD size in [0, 2048]. *)
Theorem numeric_fields_accept_their_ranges (z z' : Z) (q q' : Q) :
  (weight_field (Some q) = inr q' <-> q' = q /\ (1 # 2 <= q <= 5)%Q)
  /\ (ppi_field (Some q) = inr q' <-> q' = q /\ (90 <= q <= 400)%Q)
  /\ (touchscreen_field (Some z) = inr z' <-> z' = z /\ (0 <= z <= 1)%Z)
  /\ (ips_field (Some z) = inr z' <-> z' = z /\ (0 <= z <= 1)%Z)
  /\ (hdd_field (Some z) = inr z' <-> z' = z /\ (0 <= z <= 2000)%Z)
  /\ (ssd_field (Some z) = inr z' <-> z' = z /\ (0 <= z <= 2048)%Z).
Proof.
  repeat match goal with |- _ /\ _ => split end;
    first [apply float_validator_spec | apply int_validator_spec].
Qed.

Lemma Field_default_range (lo hi : Z) (raw : option Z) (v : Z) :
  (lo <= 0 <= hi)%Z ->
  Field_default 0%Z (int_validator lo hi) raw = inr v -> (lo <= v <= hi)%Z.
Proof.
  intros H0. destruct raw as [x|]; cbn.
  - intros Hv. apply int_validator_spec in Hv. lia.
  - intros [= <-]. exact H0.
Qed.

Lemma ram_field_inr (raw : option Z) (v : Z) :
  ram_field raw = inr v -> raw = Some v /\ In v valid_ram.
Proof.
  destruct raw as [x|]; [|discriminate].
  destruct (in_dec Z.eq_dec x valid_ram) as [Hin|Hnin].
  - rewrite (proj1 (ram_field_spec x) Hin). by intros [= <-].
  - destruct (proj2 (ram_field_spec x) Hnin) as [e ->]. discriminate.
Qed.

(** Every validated record is within the domains of the schema: the RAM
    is one of the nine sizes and each number is within its range. *)
Theorem validated_features_in_domain (b : RawBody) (f : LaptopFeatures) :
  model_validate b = inr f ->
  In (ram f) valid_ram
  /\ (1 # 2 <= weight f <= 5)%Q
  /\ (0 <= touchscreen f <= 1)%Z
  /\ (0 <= ips f <= 1)%Z
  /\ (90 <= ppi f <= 400)%Q
  /\ (0 <= hdd f <= 2000)%Z
  /\ (0 <= ssd f <= 2048)%Z.
Proof.
  intros Hok. apply model_validate_inr in Hok.
  destruct Hok as (_&_&Hram&Hw&Ht&Hi&Hp&_&Hh&Hs&_&_).
  split; [exact (proj2 (ram_field_inr _ _ Hram))|].
  split.
  { unfold weight_field in Hw. destruct (raw_weight b); [|discriminate].
    apply float_validator_spec in Hw. destruct Hw as [-> Hw]. exact Hw. }
  split; [exact (Field_default_range 0 1 _ _ ltac:(lia) Ht)|].
  split; [exact (Field_default_range 0 1 _ _ ltac:(lia) Hi)|].
  split.
  { unfold ppi_field in Hp. destruct (raw_ppi b); [|discriminate].
    apply float_validator_spec in Hp. destruct Hp as [-> Hp]. exact Hp. }
  split; [exact (Field_default_range 0 2000 _ _ ltac:(lia) Hh)
         |exact (Field_default_range 0 2048 _ _ ltac:(lia) Hs)].
Qed.

Lemma validated_features_in_domain_witness :
  In (ram example_features) valid_ram
  /\ (1 # 2 <= weight example_features <= 5)%Q.
Proof.
  destruct (validated_features_in_domain example_body example_features)
    as (H1 & H2 & _); [reflexivity|].
  split; assumption.
Defined.

Lemma error_at_locations {B} (loc : string) (r : ErrorType + B) :
  map fst (error_at loc r) `sublist_of` [loc].
Proof.
  destruct r; cbn; [reflexivity|apply sublist_nil_l].
Qed.

Lemma all_field_errors_locations (b : RawBody) :
  map fst (all_field_errors b) `sublist_of` field_names.
Proof.
  unfold all_field_errors. rewrite !map_app.
  change field_names
    with (["company"] ++ ["type_name"] ++ ["ram"] ++ ["weight"]
          ++ ["touchscreen"] ++ ["ips"] ++ ["ppi"] ++ ["cpu_brand"]
          ++ ["hdd"] ++ ["ssd"] ++ ["gpu_brand"] ++ ["os"])%list.
  repeat (apply sublist_app; [apply error_at_locations|]).
  apply error_at_locations.
Qed.

Ltac field_result_case :=
  match goal with
  | |- context [match ?r with inl _ => _ | inr _ => _ end] =>
      destruct r eqn:?
  end.

Lemma model_validate_inl_nonempty (b : RawBody) (errs : list ErrorDetails) :
  model_validate b = inl errs -> errs <> [].
Proof.
  unfold model_validate.
  do 12 (field_result_case; [intros [= <-]; cbn [error_at app]; discriminate|]).
  discriminate.
Qed.

(** A failed validation reports every rejected field and nothing else:
    at least one line, the lines of all the rejected fields, at most one
    per field and in the order of the fields; and a body none of whose
    fields is rejected is accepted. *)
Theorem validation_reports_every_rejected_field (b : RawBody) :
  (forall errs,
     model_validate b = inl errs ->
     errs = all_field_errors b /\ errs <> []
     /\ map fst errs `sublist_of` field_names)
  /\ (forall loc e,
        In (loc, e) (all_field_errors b) ->
        exists errs, model_validate b = inl errs /\ In (loc, e) errs)
  /\ (all_field_errors b = [] -> exists f, model_validate b = inr f).
Proof.
  split; [|split].
  - intros errs Hfail. pose proof (model_validate_inl _ _ Hfail) as ->.
    split; [reflexivity|]. split; [by eapply model_validate_inl_nonempty|].
    apply all_field_errors_locations.
  - apply model_validate_field_error.
  - intros Hnil. destruct (model_validate b) as [errs|f] eqn:E; [|by eexists].
    exfalso. apply (model_validate_inl_nonempty _ _ E).
    by rewrite (model_validate_inl _ _ E).
Qed.

Lemma validation_reports_every_rejected_field_witness :
  model_validate
    {| raw_company := Some "Dell"; raw_type_name := None;
       raw_ram := Some 5%Z; raw_weight := Some 9%Q;
       raw_touchscreen := Some 2%Z; raw_ips := None;
       raw_ppi := Some (14121 # 100)%Q;
       raw_cpu_brand := Some "Intel Core i9";
       raw_hdd := None; raw_ssd := None;
       raw_gpu_brand := Some "Intel"; raw_os := Some "Windows" |}
  = inl [("type_name", missing);
         ("ram", value_error "RAM must be one of [2, 4, 6, 8, 12, 16, 24, 32, 64]");
         ("weight", less_than_equal);
         ("touchscreen", less_than_equal);
         ("cpu_brand", enum)].
Proof.
  destruct (model_validate _) as [errs|f] eqn:E; [|discriminate E].
  destruct (validation_reports_every_rejected_field
              {| raw_company := Some "Dell"; raw_type_name := None;
                 raw_ram := Some 5%Z; raw_weight := Some 9%Q;
                 raw_touchscreen := Some 2%Z; raw_ips := None;
                 raw_ppi := Some (14121 # 100)%Q;
                 raw_cpu_brand := Some "Intel Core i9";
                 raw_hdd := None; raw_ssd := None;
                 raw_gpu_brand := Some "Intel"; raw_os := Some "Windows" |})
    as [Hall _].
  destruct (Hall errs E) as [-> _]. reflexivity.
Defined.

Lemma enum_fields_round_trip (f : LaptopFeatures) :
  company_field (Some (Company.value (company f))) = inr (company f)
  /\ type_name_field (Some (TypeName.value (type_name f)))
     = inr (type_name f)
  /\ cpu_brand_field (Some (CpuBrand.value (cpu_brand f)))
     = inr (cpu_brand f)
  /\ gpu_brand_field (Some (GpuBrand.value (gpu_brand f)))
     = inr (gpu_brand f)
  /\ os_field (Some (OS.value (os f))) = inr (os f).
Proof.
  repeat split.
  - by destruct (company f).
  - by destruct (type_name f).
  - by destruct (cpu_brand f).
  - by destruct (gpu_brand f).
  - by destruct (os f).
Qed.

(** The features echoed in a response validate to themselves: validation
    is the identity on what it has accepted. *)
Theorem echoed_features_validate (b : RawBody) (f : LaptopFeatures) :
  model_validate b = inr f -> model_validate (echo_body f) = inr f.
Proof.
  intros Hok.
  pose proof (model_validate_inr _ _ Hok)
    as (_&_&Hram&Hw&Ht&Hi&Hp&_&Hh&Hs&_&_).
  destruct (enum_fields_round_trip f) as (Ec&Et&Ecpu&Eg&Eo).
  apply ram_field_inr in Hram. destruct Hram as [_ Hram].
  apply (proj1 (ram_field_spec _)) in Hram.
  assert (Ew : weight_field (Some (weight f)) = inr (weight f)).
  { unfold weight_field in *. destruct (raw_weight b); [|discriminate].
    cbn in *. apply float_validator_spec in Hw. destruct Hw as [-> Hw].
    by apply float_validator_spec. }
  assert (Ep : ppi_field (Some (ppi f)) = inr (ppi f)).
  { unfold ppi_field in *. destruct (raw_ppi b); [|discriminate].
    cbn in *. apply float_validator_spec in Hp. destruct Hp as [-> Hp].
    by apply float_validator_spec. }
  pose proof (Field_default_range 0 1 _ _ ltac:(lia) Ht) as Rt.
  pose proof (Field_default_range 0 1 _ _ ltac:(lia) Hi) as Ri.
  pose proof (Field_default_range 0 2000 _ _ ltac:(lia) Hh) as Rh.
  pose proof (Field_default_range 0 2048 _ _ ltac:(lia) Hs) as Rs.
  unfold model_validate, echo_body;
    cbn [raw_company raw_type_name raw_ram raw_weight raw_touchscreen
         raw_ips raw_ppi raw_cpu_brand raw_hdd raw_ssd raw_gpu_brand raw_os].
  rewrite Ec, Et, Ecpu, Eg, Eo, Hram, Ew, Ep.
  unfold touchscreen_field, ips_field, hdd_field, ssd_field, Field_default.
  rewrite (proj2 (int_validator_spec 0 1 (touchscreen f) _) (conj eq_refl Rt)).
  rewrite (proj2 (int_validator_spec 0 1 (ips f) _) (conj eq_refl Ri)).
  rewrite (proj2 (int_validator_spec 0 2000 (hdd f) _) (conj eq_refl Rh)).
  rewrite (proj2 (int_validator_spec 0 2048 (ssd f) _) (conj eq_refl Rs)).
  by destruct f.
Qed.

Lemma echoed_features_validate_witness :
  model_validate (echo_body example_features) = inr example_features.
Proof.
  apply (echoed_features_validate example_body). reflexivity.
Defined.

(** The options of the front-end form against the schema: the companies,
    types, GPU brands and operating systems offered are the values of the
    schema's enumerations, in order; every CPU offered is accepted except
    "Intel Core i9", which the schema rejects. *)
Theorem frontend_options_against_schema :
  Frontend.available_companies = map Company.value Company.members
  /\ Frontend.available_types = map TypeName.value TypeName.members
  /\ Frontend.available_gpus = map GpuBrand.value GpuBrand.members
  /\ Frontend.available_os = map OS.value OS.members
  /\ (forall s, In s Frontend.available_cpus ->
        (exists c, cpu_brand_field (Some s) = inr c) <-> s <> "Intel Core i9")
  /\ cpu_brand_field (Some "Intel Core i9") = inl enum
  /\ (forall c, In (CpuBrand.value c) Frontend.available_cpus).
Proof.
  repeat match goal with |- _ /\ _ => split end; try reflexivity.
  - intros s Hin. cbn in Hin.
    destruct Hin as [<-|[<-|[<-|[<-|[<-|[<-|[]]]]]]]; split.
    all: try (intros _; discriminate).
    all: try (intros _; eexists; reflexivity).
    + intros [c Hc]. discriminate Hc.
    + intros Hne. by destruct Hne.
  - intros c. destruct c; cbn; tauto.
Qed.

Lemma enum_fields_accept_their_values_witness :
  company_field (Some "Dell") = inr Company.DELL
  /\ forall err, os_field (Some "Solaris") = inl err -> err = enum.
Proof.
  split.
  - by apply (enum_fields_accept_their_values "Dell").
  - intros err Herr.
    apply (enum_fields_accept_their_values "Solaris"). tauto.
Defined.

Lemma frontend_options_against_schema_witness :
  (exists c, cpu_brand_field (Some "Intel Core i7") = inr c)
  /\ ~ (exists c, cpu_brand_field (Some "Intel Core i9") = inr c).
Proof.
  destruct frontend_options_against_schema as (_ & _ & _ & _ & Hcpu & _).
  split.
  - apply (Hcpu "Intel Core i7"); [cbn; tauto|discriminate].
  - intros H. apply (Hcpu "Intel Core i9") in H; [by apply H|cbn; tauto].
Defined.

End FeatureSchemaLaws.

(* ================================================================== *)
(** * Further properties of the model loader                           *)
(* ================================================================== *)

Section ModelLoaderLaws.
Implicit Types (env : Env) (w : World) (features : LaptopFeatures).

(** [load_model], case by case. *)
Lemma load_model_run env w :
  LaptopPriceModel.load_model env w
  = if is_loaded w then (Ok tt, w)
    else
      let started :=
        ((log w ++ [INFO (Msg ("Loading model from: "
                                +:+ settings_model_path env))])
         ++ [INFO (Msg ("Loading data from: "
                         +:+ settings_data_path env))])%list in
      let failed (e : exn) :=
        (Raise e,
         with_log (started ++ [ERROR (MsgExn "Error loading model: " e)]) w) in
      match missing_file env with
      | Some e => failed e
      | None =>
          match pickle_load env (settings_model_path env) with
          | Raise e => failed e
          | Ok m =>
              match pickle_load env (settings_data_path env) with
              | Raise e => failed e
              | Ok d =>
                  (Ok tt,
                   with_log
                     (started
                      ++ [INFO (Msg "Model and data loaded successfully")])
                     (with_loaded m d w))
              end
          end
      end.
Proof.
  unfold LaptopPriceModel.load_model, missing_file.
  unfold bind at 1, gets.
  destruct (is_loaded w); cbn [negb]; [reflexivity|].
  unfold try_except, bind, logger, modify, raise, ret, lift.
  destruct (negb (path_exists env (settings_model_path env)));
    [reflexivity|].
  destruct (negb (path_exists env (settings_data_path env)));
    [reflexivity|].
  destruct (pickle_load env (settings_model_path env)); [|reflexivity].
  destruct (pickle_load env (settings_data_path env)); reflexivity.
Qed.

(** A load with both files in place and readable sets the model, the data
    and the flag and touches nothing else but the log; from then on
    [load_model] does nothing, whatever has become of the files. *)
Theorem load_model_loads_once env w (m d : PyObject) :
  is_loaded w = false ->
  path_exists env (settings_model_path env) = true ->
  path_exists env (settings_data_path env) = true ->
  pickle_load env (settings_model_path env) = Ok m ->
  pickle_load env (settings_data_path env) = Ok d ->
  exists w',
    LaptopPriceModel.load_model env w = (Ok tt, w')
    /\ is_loaded w' = true /\ model w' = Some m /\ df w' = Some d
    /\ cache w' = cache w /\ tasks w' = tasks w /\ db_calls w' = db_calls w
    /\ uuid_count w' = uuid_count w
    /\ forall env', LaptopPriceModel.load_model env' w' = (Ok tt, w').
Proof.
  intros Hl Hm Hd Hpm Hpd.
  rewrite load_model_run, Hl. unfold missing_file.
  rewrite Hm, Hd, Hpm, Hpd. cbn [negb]. cbv zeta.
  eexists. split; [reflexivity|].
  do 7 (split; [reflexivity|]).
  intros env'. by rewrite load_model_run.
Qed.

Lemma load_model_loads_once_witness :
  exists w',
    LaptopPriceModel.load_model (sample_env true true) (initial_world 0)
    = (Ok tt, w')
    /\ is_loaded w' = true /\ model w' = Some (Unpickled 0)
    /\ LaptopPriceModel.load_model (sample_env false true) w' = (Ok tt, w').
Proof.
  destruct (load_model_loads_once (sample_env true true) (initial_world 0)
              (Unpickled 0) (Unpickled 1))
    as (w' & H1 & H2 & H3 & _ & _ & _ & _ & H4); try reflexivity.
  exists w'. split; [exact H1|]. split; [exact H2|]. split; [exact H3|].
  apply H4.
Defined.



(** The frame built from the dump of a validated record has the twelve
    columns of the record, so no [KeyError] arises in the pipeline; a
    dictionary that lacks one of the twelve keys raises [KeyError] for a
    key it lacks. *)
Theorem preprocess_features_columns :
  (forall features,
     LaptopPriceModel.preprocess_features (model_dump features)
     = Ok (feature_frame features))
  /\ (forall (d : dict) (key : string),
        In key field_names -> d !! key = None ->
        exists k, LaptopPriceModel.preprocess_features d = Raise (KeyError k)
                  /\ In k field_names /\ d !! k = None).
Proof.
  split; [reflexivity|].
  intros d key Hin Hnone.
  unfold LaptopPriceModel.preprocess_features, getitem.
  destruct (d !! "company") eqn:?; [|eexists; repeat split; cbn; eauto 15].
  destruct (d !! "type_name") eqn:?; [|eexists; repeat split; cbn; eauto 15].
  destruct (d !! "ram") eqn:?; [|eexists; repeat split; cbn; eauto 15].
  destruct (d !! "weight") eqn:?; [|eexists; repeat split; cbn; eauto 15].
  destruct (d !! "touchscreen") eqn:?; [|eexists; repeat split; cbn; eauto 15].
  destruct (d !! "ips") eqn:?; [|eexists; repeat split; cbn; eauto 15].
  destruct (d !! "ppi") eqn:?; [|eexists; repeat split; cbn; eauto 15].
  destruct (d !! "cpu_brand") eqn:?; [|eexists; repeat split; cbn; eauto 15].
  destruct (d !! "hdd") eqn:?; [|eexists; repeat split; cbn; eauto 15].
  destruct (d !! "ssd") eqn:?; [|eexists; repeat split; cbn; eauto 15].
  destruct (d !! "gpu_brand") eqn:?; [|eexists; repeat split; cbn; eauto 15].
  destruct (d !! "os") eqn:?; [|eexists; repeat split; cbn; eauto 15].
  exfalso. cbn in Hin.
  repeat (destruct Hin as [<-|Hin]; [congruence|]). exact Hin.
Qed.

Lemma preprocess_features_columns_witness :
  exists k, LaptopPriceModel.preprocess_features
              (delete "ram" (model_dump example_features))
            = Raise (KeyError k)
            /\ In k field_names.
Proof.
  destruct (proj2 preprocess_features_columns
              (delete "ram" (model_dump example_features)) "ram")
    as (k & Hk & Hin & _); [cbn; tauto|reflexivity|].
  by exists k.
Defined.

End ModelLoaderLaws.

(* ================================================================== *)
(** * Further properties of the prediction pipeline                    *)
(* ================================================================== *)

Section PipelineLaws.
Implicit Types (env : Env) (w : World) (features : LaptopFeatures).
Implicit Types (kf : LaptopFeatures -> result string).

Lemma preprocess_model_dump features :
  LaptopPriceModel.preprocess_features (model_dump features)
  = Ok (feature_frame features).
Proof. reflexivity. Qed.

(** Inference with the model loaded: the regressor's answer goes through
    the model-layer normalisation and the process is left as it was; the
    regressor's exception is logged and raised again. *)
Theorem inference_with_loaded_model env w (m : PyObject) features :
  is_loaded w = true ->
  model w = Some m ->
  LaptopPriceModel.predict env (model_dump features) w
  = match model_predict env m (feature_frame features) with
    | Ok raw => (Ok (_process_prediction raw), w)
    | Raise e =>
        (Raise e, with_log (log w ++ [ERROR (MsgExn "Prediction error: " e)]) w)
    end.
Proof.
  intros Hl Hm.
  unfold LaptopPriceModel.predict, bind at 1, gets. rewrite Hl. cbn [negb].
  unfold bind at 1, ret. unfold try_except, bind at 1, lift.
  rewrite preprocess_model_dump. unfold bind at 1, gets. rewrite Hm.
  unfold bind, lift, ret, raise, logger, modify.
  destruct (model_predict env m (feature_frame features)); reflexivity.
Qed.

Lemma inference_with_loaded_model_witness :
  LaptopPriceModel.predict (sample_env true true)
    (model_dump example_features)
    (with_loaded (Unpickled 0) (Unpickled 1) (initial_world 0))
  = (Ok (_process_prediction 11),
     with_loaded (Unpickled 0) (Unpickled 1) (initial_world 0)).
Proof.
  rewrite (inference_with_loaded_model (sample_env true true) _
             (Unpickled 0) example_features); reflexivity.
Defined.

Lemma predict_loaded_ok env w (m : PyObject) features (raw : R) :
  is_loaded w = true ->
  model w = Some m ->
  model_predict env m (feature_frame features) = Ok raw ->
  LaptopPriceModel.predict env (model_dump features) w
  = (Ok (_process_prediction raw), w).
Proof.
  intros Hl Hm Hraw.
  unfold LaptopPriceModel.predict, bind at 1, gets. rewrite Hl. cbn [negb].
  unfold bind at 1, ret. unfold try_except, bind at 1, lift.
  rewrite preprocess_model_dump. unfold bind at 1, gets. rewrite Hm.
  unfold bind, lift, ret. by rewrite Hraw.
Qed.

Lemma format_price_ok (price : R) :
  exists s, format_price price = (Ok s, []).
Proof.
  unfold format_price, format_price_with.
  cbn [float_format String.eqb Ascii.eqb Bool.eqb]. by eexists.
Qed.

Lemma predict_price_hit_run kf env w features (key : string)
    (response : PredictionResponse.t) :
  kf features = Ok key ->
  fst (SimpleCache.get (clock w) key (cache w)) = Some response ->
  PredictionService.predict_price_with kf env features w
  = (Ok response,
     with_log (log w ++ [INFO (Msg "Returning cached prediction")]) w).
Proof.
  intros Hk Hhit.
  unfold PredictionService.predict_price_with, bind at 1, lift.
  rewrite Hk. unfold bind at 1, cache_get.
  unfold SimpleCache.get in *.
  destruct (SimpleCache._cache (cache w) !! key) as [[value timestamp]|];
    [|discriminate].
  destruct (Qlt_le_dec _ _); [|discriminate].
  cbn [fst] in Hhit. injection Hhit as ->.
  reflexivity.
Qed.

Lemma predict_price_miss_run kf env w features (key : string) (m : PyObject)
    (raw : R) :
  kf features = Ok key ->
  fst (SimpleCache.get (clock w) key (cache w)) = None ->
  is_loaded w = true ->
  model w = Some m ->
  model_predict env m (feature_frame features) = Ok raw ->
  exists response w',
    PredictionService.predict_price_with kf env features w = (Ok response, w')
    /\ PredictionResponse.prediction_id response = uuid4 env (uuid_count w)
    /\ PredictionResponse.predicted_price response
       = fst (_apply_price_correction (_process_prediction raw))
    /\ (10000 <= PredictionResponse.predicted_price response <= 500000)%R
    /\ fst (format_price (PredictionResponse.predicted_price response))
       = Ok (PredictionResponse.price_formatted response)
    /\ PredictionResponse.features response = features
    /\ cache w'
       = SimpleCache.set (clock w) key response
           (snd (SimpleCache.get (clock w) key (cache w)))
    /\ tasks w'
       = (tasks w ++ [SavePredictionRecord (model_dump features) response])%list
    /\ uuid_count w' = S (uuid_count w)
    /\ db_calls w' = db_calls w /\ clock w' = clock w
    /\ is_loaded w' = true /\ model w' = Some m.
Proof.
  intros Hk Hmiss Hl Hm Hraw.
  unfold PredictionService.predict_price_with, bind at 1, lift.
  rewrite Hk. unfold bind at 1, cache_get.
  destruct (SimpleCache.get (clock w) key (cache w)) as [v c].
  cbn [fst snd] in *. subst v.
  unfold bind at 1, logger, modify. unfold bind at 1.
  match goal with
  | |- context [LaptopPriceModel.predict env ?fd ?w1] =>
      rewrite (predict_loaded_ok env w1 m features raw Hl Hm Hraw)
  end.
  destruct (_apply_price_correction (_process_prediction raw))
    as [price corrections] eqn:Hprice.
  pose proof (apply_price_correction_band (_process_prediction raw)) as Hband.
  rewrite Hprice in Hband. cbn [fst] in Hband.
  destruct (format_price_ok price) as [s Hs]. rewrite Hs.
  unfold bind, logger_all, new_uuid, cache_set, create_task, modify, lift, ret.
  cbn [fst snd].
  eexists _, _. split; [reflexivity|].
  cbn [PredictionResponse.prediction_id PredictionResponse.predicted_price
       PredictionResponse.price_formatted PredictionResponse.features
       cache tasks uuid_count db_calls clock is_loaded model
       with_cache with_log with_tasks with_uuid_count].
  rewrite Hs. cbn [fst].
  repeat match goal with |- _ /\ _ => split end;
    try reflexivity; try assumption; apply Hband.
Qed.

(** A request answered from the cache: the cached response is returned
    and nothing but the log changes; no model is loaded or called, no
    identifier is drawn and no save is scheduled. *)
Theorem cached_response_is_served kf env w features (key : string)
    (response : PredictionResponse.t) :
  kf features = Ok key ->
  fst (SimpleCache.get (clock w) key (cache w)) = Some response ->
  PredictionService.predict_price_with kf env features w
  = (Ok response,
     with_log (log w ++ [INFO (Msg "Returning cached prediction")]) w).
Proof. apply predict_price_hit_run. Qed.

Lemma cached_response_is_served_witness :
  fst (PredictionService.predict_price_with (fun _ => Ok "prediction:42")
         (sample_env false false) example_features
         (with_cache (SimpleCache.set 0 "prediction:42" sample_response
                        (SimpleCache.init SimpleCache.default_ttl))
            (initial_world 299)))
  = Ok sample_response.
Proof.
  rewrite (cached_response_is_served (fun _ => Ok "prediction:42")
             (sample_env false false) _ example_features "prediction:42"
             sample_response); reflexivity.
Defined.







End PipelineLaws.

(* ================================================================== *)
(** * Properties of the prediction repository                          *)
(* ================================================================== *)

Section RepositoryLaws.
Import MongoDBRepository.
Implicit Types (collection : list Document) (record : PredictionRecord.t).

Lemma find_none_iff (prediction_id : string) collection :
  find_prediction_by_id prediction_id collection = None
  <-> ~ In prediction_id (stored_ids collection).
Proof.
  unfold find_prediction_by_id, stored_ids.
  induction collection as [|d rest IH]; cbn [List.find map In]; [tauto|].
  unfold has_prediction_id at 1.
  destruct (String.eqb_spec (PredictionRecord.prediction_id (data d))
              prediction_id) as [->|Hne].
  - split; [discriminate|]. intros H. exfalso. apply H. by left.
  - rewrite IH. tauto.
Qed.

Lemma find_app_new (prediction_id : string) collection (d : Document) :
  find_prediction_by_id prediction_id (collection ++ [d])
  = match find_prediction_by_id prediction_id collection with
    | Some found => Some found
    | None => if has_prediction_id prediction_id d then Some d else None
    end.
Proof.
  unfold find_prediction_by_id.
  induction collection as [|x rest IH]; cbn [List.find app]; [reflexivity|].
  by destruct (has_prediction_id prediction_id x).
Qed.

(** Saving and looking up: the identifier returned by a save is the one
    drawn by the repository, and while it is new to the collection a
    lookup by it gives the saved data under that identifier and the
    time of the save; lookups by other identifiers and the other
    documents are unaffected, and the count grows by one. *)
Theorem saved_record_is_found_by_returned_id (new_uuid now_iso : string)
    (object_id : nat) record collection :
  ~ In new_uuid (stored_ids collection) ->
  let '(returned, after) :=
    PredictionRepository.save_prediction new_uuid now_iso object_id record
      collection in
  returned = new_uuid
  /\ PredictionRepository.get_prediction returned after
     = Some {| PredictionRecord.input_features :=
                 PredictionRecord.input_features record;
               PredictionRecord.output_prediction :=
                 PredictionRecord.output_prediction record;
               PredictionRecord.price_formatted :=
                 PredictionRecord.price_formatted record;
               PredictionRecord.timestamp := now_iso;
               PredictionRecord.prediction_id := new_uuid |}
  /\ (forall other, other <> new_uuid ->
        PredictionRepository.get_prediction other after
        = PredictionRepository.get_prediction other collection)
  /\ get_predictions_count after = (get_predictions_count collection + 1)%Z.
Proof.
  intros Hnew.
  unfold PredictionRepository.save_prediction, insert_prediction,
    PredictionRepository.get_prediction.
  split; [reflexivity|]. split; [|split].
  - rewrite find_app_new.
    rewrite (proj2 (find_none_iff new_uuid collection) Hnew).
    unfold has_prediction_id; cbn. by rewrite String.eqb_refl.
  - intros other Hne. rewrite find_app_new.
    destruct (find_prediction_by_id other collection); [reflexivity|].
    unfold has_prediction_id; cbn.
    by destruct (String.eqb_spec new_uuid other) as [->|].
  - unfold get_predictions_count. rewrite length_app. cbn. lia.
Qed.

Lemma saved_record_is_found_by_returned_id_witness :
  PredictionRepository.get_prediction "id-d"
    (snd (PredictionRepository.save_prediction "id-d"
            "2025-01-02T00:00:00+00:00" 3 (sample_record "uuid-0" "Asus")
            sample_collection))
  = Some {| PredictionRecord.input_features := {[ "company" := PyStr "Asus" ]};
            PredictionRecord.output_prediction := 59874;
            PredictionRecord.price_formatted := "₹59,874.00";
            PredictionRecord.timestamp := "2025-01-02T00:00:00+00:00";
            PredictionRecord.prediction_id := "id-d" |}.
Proof.
  pose proof (saved_record_is_found_by_returned_id "id-d"
                "2025-01-02T00:00:00+00:00" 3 (sample_record "uuid-0" "Asus")
                sample_collection) as H.
  destruct (PredictionRepository.save_prediction _ _ _ _ _) as [returned after].
  destruct H as (-> & Hfound & _).
  - cbn. intros [H|[H|[H|[]]]]; discriminate H.
  - exact Hfound.
Defined.

(** The identifier a record carries when it is saved, which for a
    prediction is the one of the response, is not the one it is stored
    under: unless it happens to be the identifier the repository draws,
    or is already stored, a lookup by it finds nothing and the route
    answers 404. *)
Theorem saved_record_is_not_found_by_its_own_id (new_uuid now_iso : string)
    (object_id : nat) record collection :
  PredictionRecord.prediction_id record <> new_uuid ->
  ~ In (PredictionRecord.prediction_id record) (stored_ids collection) ->
  let after :=
    snd (PredictionRepository.save_prediction new_uuid now_iso object_id
           record collection) in
  PredictionRepository.get_prediction (PredictionRecord.prediction_id record)
    after = None
  /\ StoredPredictionRoutes.get_prediction
       (PredictionRecord.prediction_id record) after
     = Raise (HTTPException 404 "Prediction not found")
  /\ ~ In (PredictionRecord.prediction_id record) (stored_ids after).
Proof.
  intros Hne Hnew after.
  assert (Hfind : find_prediction_by_id
                    (PredictionRecord.prediction_id record) after = None).
  { subst after.
    unfold PredictionRepository.save_prediction, insert_prediction.
    cbn [snd]. rewrite find_app_new.
    rewrite (proj2 (find_none_iff _ collection) Hnew).
    unfold has_prediction_id; cbn.
    destruct (String.eqb_spec new_uuid (PredictionRecord.prediction_id record));
      [congruence|reflexivity]. }
  unfold StoredPredictionRoutes.get_prediction,
    PredictionRepository.get_prediction.
  rewrite Hfind. repeat split. by apply find_none_iff.
Qed.

Lemma saved_record_is_not_found_by_its_own_id_witness :
  StoredPredictionRoutes.get_prediction "uuid-0"
    (snd (PredictionRepository.save_prediction "id-d"
            "2025-01-02T00:00:00+00:00" 3 (sample_record "uuid-0" "Asus")
            sample_collection))
  = Raise (HTTPException 404 "Prediction not found").
Proof.
  apply (saved_record_is_not_found_by_its_own_id "id-d"
           "2025-01-02T00:00:00+00:00" 3 (sample_record "uuid-0" "Asus")
           sample_collection).
  - discriminate.
  - cbn. intros [H|[H|[H|[]]]]; discriminate H.
Defined.

Lemma delete_one_spec (filter : Document -> bool) collection :
  let '(n, after) := delete_one filter collection in
  n = (if existsb filter collection then 1 else 0)%Z
  /\ Z.of_nat (length after) = (Z.of_nat (length collection) - n)%Z
  /\ (existsb filter collection = false -> after = collection)
  /\ (forall g : Document -> bool,
        (forall d, g d = true -> filter d = false) ->
        List.find g after = List.find g collection)
  /\ (forall d, In d after -> In d collection).
Proof.
  induction collection as [|d rest IH]; cbn [delete_one existsb].
  - repeat split; cbn; tauto.
  - destruct (filter d) eqn:Hd; cbn [orb].
    + split; [reflexivity|]. split; [cbn [length]; lia|].
      split; [discriminate|]. split.
      * intros g Hg. cbn [List.find].
        destruct (g d) eqn:Hgd; [|reflexivity].
        apply Hg in Hgd. congruence.
      * intros x Hx. by right.
    + destruct (delete_one filter rest) as [n rest'].
      destruct IH as (Hn & Hlen & Hsame & Hfind & Hin).
      split; [exact Hn|]. split; [cbn [length]; lia|].
      split; [intros H; by rewrite (Hsame H)|]. split.
      * intros g Hg. cbn [List.find]. by rewrite (Hfind g Hg).
      * intros x [<-|Hx]; [by left|right; by apply Hin].
Qed.

Lemma delete_one_unique (prediction_id : string) collection :
  List.NoDup (stored_ids collection) ->
  ~ In prediction_id
      (stored_ids (snd (delete_one (has_prediction_id prediction_id)
                          collection))).
Proof.
  induction collection as [|d rest IH]; cbn [delete_one stored_ids map];
    [cbn; tauto|].
  intros Hnd. apply NoDup_cons_iff in Hnd. destruct Hnd as [Hd Hrest].
  unfold has_prediction_id at 1.
  destruct (String.eqb_spec (PredictionRecord.prediction_id (data d))
              prediction_id) as [<-|Hne].
  - exact Hd.
  - specialize (IH Hrest).
    destruct (delete_one (has_prediction_id prediction_id) rest) as [n rest'].
    cbn [snd stored_ids map In] in *. tauto.
Qed.

(** Deleting by identifier: the call succeeds exactly when a document
    with the identifier is stored, and then removes one document; a
    failed call changes nothing; lookups by other identifiers are
    unaffected; and with distinct identifiers in the collection the
    identifier is gone afterwards. *)
Theorem delete_prediction_removes_one (prediction_id : string) collection :
  let '(success, after) := delete_prediction prediction_id collection in
  (success = true <-> In prediction_id (stored_ids collection))
  /\ get_predictions_count after
     = (get_predictions_count collection - (if success then 1 else 0))%Z
  /\ (success = false -> after = collection)
  /\ (forall other, other <> prediction_id ->
        find_prediction_by_id other after
        = find_prediction_by_id other collection)
  /\ (List.NoDup (stored_ids collection) ->
      find_prediction_by_id prediction_id after = None).
Proof.
  unfold delete_prediction.
  pose proof (delete_one_spec (has_prediction_id prediction_id) collection)
    as Hspec.
  pose proof (delete_one_unique prediction_id collection) as Huniq.
  destruct (delete_one (has_prediction_id prediction_id) collection)
    as [n after].
  destruct Hspec as (Hn & Hlen & Hsame & Hfind & _). cbn [snd] in Huniq.
  assert (Hex : existsb (has_prediction_id prediction_id) collection = true
                <-> In prediction_id (stored_ids collection)).
  { rewrite existsb_exists. unfold stored_ids. rewrite in_map_iff.
    unfold has_prediction_id.
    split; intros (d & H1 & H2); exists d.
    - apply String.eqb_eq in H2. by split.
    - split; [assumption|]. by apply String.eqb_eq. }
  destruct (existsb (has_prediction_id prediction_id) collection) eqn:E;
    subst n; cbn [Z.gtb Z.compare].
  - split; [tauto|]. split; [unfold get_predictions_count; lia|].
    split; [discriminate|]. split.
    + intros other Hne. apply Hfind. intros d Hd.
      unfold has_prediction_id in *. apply String.eqb_eq in Hd.
      apply String.eqb_neq. congruence.
    + intros Hnd. by apply find_none_iff, Huniq.
  - split; [split; [discriminate|]; intros H; apply Hex in H; discriminate|].
    split; [unfold get_predictions_count; lia|].
    split; [intros _; by apply Hsame|]. split.
    + intros other Hne. by rewrite (Hsame eq_refl).
    + intros Hnd. by apply find_none_iff, Huniq.
Qed.

Lemma delete_prediction_removes_one_witness :
  fst (StoredPredictionRoutes.delete_prediction "id-b" sample_collection)
  = Ok ("Prediction deleted successfully", "id-b")
  /\ find_prediction_by_id "id-b"
       (snd (delete_prediction "id-b" sample_collection)) = None.
Proof.
  pose proof (delete_prediction_removes_one "id-b" sample_collection) as H.
  split; [reflexivity|].
  destruct (delete_prediction "id-b" sample_collection) as [success after].
  destruct H as (_ & _ & _ & _ & Hgone). apply Hgone.
  cbn. repeat constructor; cbn; intuition discriminate.
Defined.

Lemma delete_prediction_removes_one_aux (prediction_id : string) collection :
  let '(success, after) := delete_prediction prediction_id collection in
  (success = true <-> In prediction_id (stored_ids collection))
  /\ (success = false -> after = collection).
Proof.
  unfold delete_prediction.
  pose proof (delete_one_spec (has_prediction_id prediction_id) collection)
    as Hspec.
  destruct (delete_one (has_prediction_id prediction_id) collection)
    as [n after].
  destruct Hspec as (Hn & _ & Hsame & _).
  assert (Hex : existsb (has_prediction_id prediction_id) collection = true
                <-> In prediction_id (stored_ids collection)).
  { rewrite existsb_exists. unfold stored_ids. rewrite in_map_iff.
    unfold has_prediction_id.
    split; intros (d & H1 & H2); exists d.
    - apply String.eqb_eq in H2. by split.
    - split; [assumption|]. by apply String.eqb_eq. }
  destruct (existsb (has_prediction_id prediction_id) collection) eqn:E;
    subst n; cbn [Z.gtb Z.compare].
  - split; [tauto|discriminate].
  - split; [|intros _; by apply Hsame].
    split; [discriminate|]. intros H. apply Hex in H. discriminate.
Qed.

(** The route that deletes by identifier answers 404 exactly when no
    document with the identifier is stored, and then leaves the
    collection as it is. *)
Theorem delete_route_not_found (prediction_id : string) collection :
  (fst (StoredPredictionRoutes.delete_prediction prediction_id collection)
   = Raise (HTTPException 404 "Prediction not found")
   <-> ~ In prediction_id (stored_ids collection))
  /\ (~ In prediction_id (stored_ids collection) ->
      snd (StoredPredictionRoutes.delete_prediction prediction_id collection)
      = collection)
  /\ (In prediction_id (stored_ids collection) ->
      fst (StoredPredictionRoutes.delete_prediction prediction_id collection)
      = Ok ("Prediction deleted successfully", prediction_id)).
Proof.
  unfold StoredPredictionRoutes.delete_prediction,
    PredictionRepository.delete_prediction.
  pose proof (delete_prediction_removes_one_aux prediction_id collection) as H.
  destruct (delete_prediction prediction_id collection) as [success after].
  destruct H as (Hiff & Hsame).
  destruct success; cbn [negb fst snd].
  - split; [split; [discriminate|]; intros H; exfalso; apply H; tauto|].
    split; [intros H; exfalso; apply H; tauto|reflexivity].
  - assert (Hnot : ~ In prediction_id (stored_ids collection))
      by (intros H; apply Hiff in H; discriminate).
    split; [tauto|]. split; [intros _; by apply Hsame|tauto].
Qed.

Lemma delete_route_not_found_witness :
  StoredPredictionRoutes.delete_prediction "id-z" sample_collection
  = (Raise (HTTPException 404 "Prediction not found"), sample_collection).
Proof.
  destruct (delete_route_not_found "id-z" sample_collection)
    as (Hiff & Hsame & _).
  assert (Hnot : ~ In "id-z" (stored_ids sample_collection))
    by (cbn; intros [H|[H|[H|[]]]]; discriminate H).
  rewrite (surjective_pairing
             (StoredPredictionRoutes.delete_prediction "id-z" sample_collection)).
  by rewrite (proj2 Hiff Hnot), (Hsame Hnot).
Defined.

(** Deleting by company: the count returned is the number of documents
    of the company, every one of them is removed and every other
    document is kept, in order; a second call deletes nothing. *)
Theorem delete_by_company_removes_all (company : string) collection :
  let '(n, after) := delete_predictions_by_company company collection in
  n = Z.of_nat (length (List.filter (has_company company) collection))
  /\ get_predictions_count after = (get_predictions_count collection - n)%Z
  /\ (forall d, In d after <-> In d collection /\ has_company company d = false)
  /\ after = List.filter (fun d => negb (has_company company d)) collection
  /\ delete_predictions_by_company company after = (0%Z, after).
Proof.
  unfold delete_predictions_by_company, delete_many, get_predictions_count.
  split; [reflexivity|]. split; [|split; [|split; [reflexivity|]]].
  - induction collection as [|d rest IH]; cbn [List.filter length];
      [reflexivity|].
    destruct (has_company company d); cbn [negb length]; lia.
  - intros d. rewrite filter_In, negb_true_iff. tauto.
  - f_equal.
    + induction collection as [|d rest IH]; cbn [List.filter];
        [reflexivity|].
      destruct (has_company company d) eqn:E; cbn [negb List.filter];
        [exact IH|]. by rewrite E.
    + induction collection as [|d rest IH]; cbn [List.filter];
        [reflexivity|].
      destruct (has_company company d) eqn:E; cbn [negb List.filter];
        [exact IH|]. rewrite E. cbn [negb]. by rewrite IH.
Qed.

End RepositoryLaws.
